(** * Secure messenger relay server: a shallow embedding of [server.js]

    The development models the Express / Socket.IO relay server of the
    repository (the route handlers, the token middleware and the three
    socket handlers) and settles the properties the specification states
    about it.

    Modelling conventions.
    - A SQLite table is the list of its rows in rowid (insertion) order;
      [SELECT ... LIMIT 1] and [db.get] return the first matching row.
    - [jsonwebtoken], [bcryptjs] and the JSON serialiser are libraries the
      server calls; they are the fields of the class [Platform].
    - [Math.random], [Date.now], the bcrypt salt and the errors the SQLite
      driver may report for reasons other than a constraint are inputs of
      a handler run, collected in [Env].
    - A handler is a computation in the monad [M]: it reads and writes the
      [World] (database and [connectedUsers]) and appends to a trace of
      [Effect]s in the order the source performs them.  A callback of the
      source is the continuation of a bind.
    - A handler run is atomic: the interleaving of the callbacks of two
      requests is outside the model.
    - Request fields are well typed: a field is absent or a string, except
      [publicKeyBundle] and [encryptedMessage], which are arbitrary JSON.
      A string is a sequence of characters and its length their number.
    - The schema declares foreign keys, which SQLite does not enforce
      unless asked to; the server does not ask.
    - The middleware mounted before the routes (helmet, cors, the JSON body
      parser and the rate limiter) is outside the model. *)

From Stdlib Require Import ZArith Ascii.
From stdpp Require Import base tactics option strings list gmap pretty sorting.

Local Open Scope string_scope.
Local Open Scope Z_scope.
Local Open Scope list_scope.

(** ** JavaScript values *)

Module Js.

#[warnings="-register-all"] Inductive jsval :=
| JUndefined
| JNull
| JBool (b : bool)
| JNum (z : Z)
| JStr (s : string)
| JObj (fields : list (string * jsval)).

(** [!!v]: every object is truthy. *)
Definition truthy (v : jsval) : bool :=
  match v with
  | JUndefined | JNull => false
  | JBool b => b
  | JNum z => negb (Z.eqb z 0)
  | JStr s => negb (String.eqb s "")
  | JObj _ => true
  end.

(** [!!s] for a field that is absent or a string. *)
Definition truthy_str (s : option string) : bool :=
  match s with
  | None => false
  | Some s => negb (String.eqb s "")
  end.

(** [s.split(sep)] for a one-character separator. *)
Fixpoint split (sep : ascii) (s : string) : list string :=
  match s with
  | EmptyString => [EmptyString]
  | String c r =>
      let parts := split sep r in
      if Ascii.eqb c sep then EmptyString :: parts
      else match parts with
           | p :: ps => String c p :: ps
           | [] => [String c EmptyString]
           end
  end.

(** [s.split(' ')] *)
Definition split_space (s : string) : list string := split " "%char s.

(** A nullable column read into a response: SQL [NULL] is [null]. *)
Definition of_nullable {A} (f : A -> jsval) (o : option A) : jsval :=
  match o with Some a => f a | None => JNull end.

(** [row?.field] on [rows[0]]. *)
Definition opt_chain {A} (row : option A) (f : A -> jsval) : jsval :=
  match row with Some r => f r | None => JUndefined end.

End Js.
Import Js.

(** ** The libraries the server calls *)

Record JwtPayload := { jwt_id : string; jwt_username : string }.

Inductive JwtError :=
| TokenExpiredError
| JsonWebTokenError (message : string)
| NotBeforeError.

Class Platform := {
  (** [jwt.sign(payload, secret, { expiresIn })] at clock reading [now]
      (milliseconds); [expiresIn] is in seconds. *)
  jwt_sign : JwtPayload -> string -> Z -> Z -> string;
  (** [jwt.verify(token, secret)] at clock reading [now]. *)
  jwt_verify : string -> string -> Z -> JwtError + JwtPayload;
  (** [bcrypt.hash(password, rounds)] with the salt the library draws. *)
  bcrypt_hash : string -> nat -> string -> string;
  (** [bcrypt.compare(password, hash)] *)
  bcrypt_compare : string -> string -> bool;
  (** The text [JSON.stringify] produces for a defined value. *)
  json_text : jsval -> string;
}.

(** [JSON.stringify(v)] is [undefined] for [undefined]. *)
Definition JSON_stringify `{Platform} (v : jsval) : option string :=
  match v with
  | JUndefined => None
  | _ => Some (json_text v)
  end.

(** ** The database *)

Record UserRow := {
  u_id : string;
  u_username : string;
  u_password_hash : string;
  u_registration_id : option Z;
  u_identity_key : option string;
}.

Record ContactRow := {
  c_id : string;
  c_user_id : string;
  c_contact_id : string;
}.

Record MessageRow := {
  m_id : string;
  m_sender_id : string;
  m_recipient_id : string;
  m_encrypted_message : string;
  m_plain_text : option string;
  (** [DEFAULT CURRENT_TIMESTAMP]: the second the row was inserted. *)
  m_timestamp : Z;
}.

Record PreKeyRow := {
  pk_id : string;
  pk_user_id : string;
  pk_key_id : Z;
  pk_public_key : string;
}.

Record SignedPreKeyRow := {
  spk_id : string;
  spk_user_id : string;
  spk_key_id : Z;
  spk_public_key : string;
  spk_signature : string;
}.

Record Db := {
  users : list UserRow;
  contacts : list ContactRow;
  messages : list MessageRow;
  pre_keys : list PreKeyRow;
  signed_pre_keys : list SignedPreKeyRow;
}.

Inductive SqliteError :=
| SQLITE_CONSTRAINT
| SQLITE_ERROR.

(** [err.code === 'SQLITE_CONSTRAINT'] *)
Definition is_constraint (e : SqliteError) : bool :=
  match e with SQLITE_CONSTRAINT => true | SQLITE_ERROR => false end.

Module Sql.

(** First row satisfying [p], in rowid order. *)
Definition first {A} (p : A -> bool) (rows : list A) : option A :=
  head (List.filter p rows).

(** [SELECT ... FROM users WHERE username = ?] *)
Definition user_by_username (db : Db) (name : string) : option UserRow :=
  first (fun u => String.eqb (u_username u) name) (users db).

(** [SELECT * FROM users WHERE id = ?] *)
Definition user_by_id (db : Db) (id : string) : option UserRow :=
  first (fun u => String.eqb (u_id u) id) (users db).

(** [SELECT u.id, u.username FROM contacts c JOIN users u
    ON c.contact_id = u.id WHERE c.user_id = ?]: the pairs of the join in
    the order of the contacts table (the order is SQLite's to choose, and
    nothing below depends on it). *)
Definition contacts_of (db : Db) (id : string) : list (string * string) :=
  List.flat_map
    (fun c =>
       List.map (fun u => (u_id u, u_username u))
         (List.filter (fun u => String.eqb (u_id u) (c_contact_id c)) (users db)))
    (List.filter (fun c => String.eqb (c_user_id c) id) (contacts db)).

(** [SELECT * FROM pre_keys WHERE user_id = ? LIMIT 1] *)
Definition pre_keys_of (db : Db) (id : string) : list PreKeyRow :=
  take 1 (List.filter (fun k => String.eqb (pk_user_id k) id) (pre_keys db)).

(** [SELECT * FROM signed_pre_keys WHERE user_id = ? LIMIT 1] *)
Definition signed_pre_keys_of (db : Db) (id : string) : list SignedPreKeyRow :=
  take 1 (List.filter (fun k => String.eqb (spk_user_id k) id) (signed_pre_keys db)).

(** [INSERT INTO users (id, username, password_hash)]: [id] is the
    primary key and [username] is [UNIQUE]. *)
Definition insert_user (db : Db) (id name hash : string) : SqliteError + Db :=
  if existsb (fun u => String.eqb (u_id u) id || String.eqb (u_username u) name)
       (users db)
  then inl SQLITE_CONSTRAINT
  else inr {| users := users db ++
                [{| u_id := id; u_username := name; u_password_hash := hash;
                    u_registration_id := None; u_identity_key := None |}];
              contacts := contacts db; messages := messages db;
              pre_keys := pre_keys db; signed_pre_keys := signed_pre_keys db |}.

(** [INSERT INTO contacts (id, user_id, contact_id)]: [id] is the primary
    key and [(user_id, contact_id)] is [UNIQUE]. *)
Definition insert_contact (db : Db) (id owner peer : string) : SqliteError + Db :=
  if existsb (fun c => String.eqb (c_id c) id
                       || (String.eqb (c_user_id c) owner
                           && String.eqb (c_contact_id c) peer))
       (contacts db)
  then inl SQLITE_CONSTRAINT
  else inr {| users := users db;
              contacts := contacts db ++
                [{| c_id := id; c_user_id := owner; c_contact_id := peer |}];
              messages := messages db;
              pre_keys := pre_keys db; signed_pre_keys := signed_pre_keys db |}.

(** The row [INSERT INTO messages] adds at second [ts], when the values
    bound to the [NOT NULL] columns are not [NULL]. *)
Definition message_row (id sender : string) (recipient enc plain : option string)
    (ts : Z) : option MessageRow :=
  match recipient, enc with
  | Some r, Some e =>
      Some {| m_id := id; m_sender_id := sender; m_recipient_id := r;
              m_encrypted_message := e; m_plain_text := plain;
              m_timestamp := ts |}
  | _, _ => None
  end.

(** [INSERT INTO messages (...)]: [id] is the primary key. *)
Definition insert_message (db : Db) (row : option MessageRow) : SqliteError + Db :=
  match row with
  | None => inl SQLITE_CONSTRAINT
  | Some m =>
      if existsb (fun m' => String.eqb (m_id m') (m_id m)) (messages db)
      then inl SQLITE_CONSTRAINT
      else inr {| users := users db; contacts := contacts db;
                  messages := messages db ++ [m];
                  pre_keys := pre_keys db;
                  signed_pre_keys := signed_pre_keys db |}
  end.

(** Insertion of [m] into a list ordered by timestamp, after the rows
    that are not later than [m]. *)
Fixpoint insert_by_timestamp (m : MessageRow) (l : list MessageRow) : list MessageRow :=
  match l with
  | [] => [m]
  | x :: r =>
      if Z.ltb (m_timestamp m) (m_timestamp x) then m :: x :: r
      else x :: insert_by_timestamp m r
  end.

(** [ORDER BY timestamp ASC].  SQL leaves the order of rows with equal
    timestamps open; SQLite's sorter keeps them in scan order, and so does
    the model. *)
Definition order_by_timestamp (l : list MessageRow) : list MessageRow :=
  foldl (fun acc m => insert_by_timestamp m acc) [] l.

(** The [WHERE] clause of the history query with parameters
    [[a; b; b; a]]. *)
Definition between (a b : string) (m : MessageRow) : bool :=
  (String.eqb (m_sender_id m) a && String.eqb (m_recipient_id m) b)
  || (String.eqb (m_sender_id m) b && String.eqb (m_recipient_id m) a).

(** [SELECT * FROM messages WHERE ... ORDER BY timestamp ASC] *)
Definition messages_between (db : Db) (a b : string) : list MessageRow :=
  order_by_timestamp (List.filter (between a b) (messages db)).

End Sql.

(** ** The server state, the effects and the handler monad *)

Record Socket := {
  socket_id : string;
  userId : string;
  username : string;
}.

(** The global [connectedUsers] is a [Map] from user id to socket. *)
Record World := {
  db : Db;
  connectedUsers : gmap string Socket;
}.

Record UserInfo := { ui_id : string; ui_username : string }.

Record RecipientKeys := {
  registrationId : jsval;
  identityKey : jsval;
  preKeyId : jsval;
  preKeyPublic : jsval;
  signedPreKeyId : jsval;
  signedPreKeyPublic : jsval;
  signedPreKeySignature : jsval;
}.

(** The JSON bodies the routes answer with. *)
Inductive Body :=
| BMessage (message : string)
| BAuth (message token : string) (user : UserInfo)
| BContacts (contacts : list UserInfo)
| BContact (message : string) (contact : UserInfo)
| BKeys (message : string) (recipientKeys : RecipientKeys)
| BMessages (rows : list MessageRow).

(** The payload of the [message] event. *)
Record MessagePush := {
  push_id : string;
  push_senderId : string;
  push_encryptedMessage : jsval;
  push_timestamp : Z;
}.

Inductive DbWrite :=
| InsertUser (id : string)
| InsertContact (id : string)
| InsertMessage (id : string).

Inductive Effect :=
| Respond (status : nat) (body : Body)
| Committed (w : DbWrite)
| Emit (to : Socket) (event : string) (payload : MessagePush)
| ConsoleLog (line : string)
| ConsoleError (line : string).

(** What a handler run draws from outside: [Date.now()], the nine
    characters [Math.random().toString(36).substr(2, 9)], the bcrypt salt,
    and for the k-th database call of the run whether the driver reports
    an error that is not a constraint violation. *)
Record Env := {
  now_ms : Z;
  random36 : string;
  salt : string;
  db_fault : nat -> bool;
}.

Definition M (A : Type) : Type := World -> A * World * list Effect.

#[global] Instance M_ret : MRet M := fun A a w => (a, w, []).
#[global] Instance M_bind : MBind M := fun A B k m w =>
  let '(a, w1, t1) := m w in
  let '(b, w2, t2) := k a w1 in
  (b, w2, t1 ++ t2).

Definition effect (e : Effect) : M unit := fun w => (tt, w, [e]).

(** The world and the trace a handler leaves. *)
Definition run {A} (m : M A) (w : World) : World * list Effect :=
  let '(_, w', t) := m w in (w', t).

(** [res.status(st).json(body)] *)
Definition res_status_json (st : nat) (body : Body) : M unit :=
  effect (Respond st body).

(** [res.json(body)] *)
Definition res_json (body : Body) : M unit := res_status_json 200 body.

(** [db.get] / [db.all]: the callback receives [err] or the rows. *)
Definition db_query {A} (fault : bool) (q : Db -> A) : M (SqliteError + A) :=
  fun w => (if fault then inl SQLITE_ERROR else inr (q (db w)), w, []).

(** [db.run]: the callback receives [err], or nothing once the statement
    is committed. *)
Definition db_run (fault : bool) (stmt : Db -> SqliteError + Db) (tag : DbWrite)
  : M (option SqliteError) :=
  fun w =>
    if fault then (Some SQLITE_ERROR, w, [])
    else match stmt (db w) with
         | inl e => (Some e, w, [])
         | inr db' =>
             (None, {| db := db'; connectedUsers := connectedUsers w |},
              [Committed tag])
         end.

Definition connectedUsers_get (k : string) : M (option Socket) :=
  fun w => (connectedUsers w !! k, w, []).

Definition connectedUsers_set (k : string) (s : Socket) : M unit :=
  fun w => (tt, {| db := db w; connectedUsers := <[k := s]> (connectedUsers w) |}, []).

Definition connectedUsers_delete (k : string) : M unit :=
  fun w => (tt, {| db := db w; connectedUsers := delete k (connectedUsers w) |}, []).

(** [validator.isLength(str, { min, max })], counting characters. *)
Definition isLength (str : string) (min : nat) (max : option nat) : bool :=
  let len := String.length str in
  (min <=? len)%nat && match max with Some mx => (len <=? mx)%nat | None => true end.

(** [prefix + Math.random().toString(36).substr(2, 9) + Date.now()] *)
Definition generateId (prefix : string) (env : Env) : string :=
  prefix +:+ random36 env +:+ pretty (now_ms env).

(** The database with its contacts table replaced. *)
Definition set_contacts (cs : list ContactRow) (d : Db) : Db :=
  {| users := users d; contacts := cs; messages := messages d;
     pre_keys := pre_keys d; signed_pre_keys := signed_pre_keys d |}.

Definition expiresIn_7d : Z := 7 * 24 * 60 * 60.

Section Server.

Context `{Platform}.

(** [process.env.JWT_SECRET], read once when the server starts. *)
Variable process_env_JWT_SECRET : option string.

Definition JWT_SECRET : string :=
  if truthy_str process_env_JWT_SECRET
  then default "" process_env_JWT_SECRET
  else "your-secret-key-change-in-production".

(** ** Token middleware *)

(** [authHeader && authHeader.split(' ')[1]] *)
Definition bearer_token (authorization : option string) : option string :=
  match authorization with
  | None => None
  | Some authHeader =>
      if truthy_str (Some authHeader) then split_space authHeader !! 1%nat
      else Some authHeader
  end.

Definition authenticateToken (env : Env) (authorization : option string)
    (next : JwtPayload -> M unit) : M unit :=
  let token := bearer_token authorization in
  if negb (truthy_str token) then
    res_status_json 401 (BMessage "Access token required")
  else
    match jwt_verify (default "" token) JWT_SECRET (now_ms env) with
    | inl err => res_status_json 403 (BMessage "Invalid token")
    | inr user => next user
    end.

(** ** [POST /api/auth/register] *)

Definition generateUserId (env : Env) : string := generateId "user_" env.

Definition auth_register (env : Env) (username password : option string) : M unit :=
  if negb (truthy_str username) || negb (truthy_str password) then
    res_status_json 400 (BMessage "Username and password required")
  else
    let username := default "" username in
    let password := default "" password in
    if negb (isLength username 3 (Some 30%nat)) then
      res_status_json 400 (BMessage "Username must be 3-30 characters")
    else if negb (isLength password 6 None) then
      res_status_json 400 (BMessage "Password must be at least 6 characters")
    else
      r ← db_query (db_fault env 0) (fun d => Sql.user_by_username d username);
      match r with
      | inl err => res_status_json 500 (BMessage "Database error")
      | inr (Some user) => res_status_json 400 (BMessage "Username already exists")
      | inr None =>
          let passwordHash := bcrypt_hash password 10 (salt env) in
          let userId := generateUserId env in
          e ← db_run (db_fault env 1)
                (fun d => Sql.insert_user d userId username passwordHash)
                (InsertUser userId);
          match e with
          | Some err => res_status_json 500 (BMessage "Error creating user")
          | None =>
              let token :=
                jwt_sign {| jwt_id := userId; jwt_username := username |}
                  JWT_SECRET (now_ms env) expiresIn_7d in
              res_json (BAuth "User created successfully" token
                          {| ui_id := userId; ui_username := username |})
          end
      end.

(** ** [POST /api/auth/login] *)

Definition auth_login (env : Env) (username password : option string) : M unit :=
  if negb (truthy_str username) || negb (truthy_str password) then
    res_status_json 400 (BMessage "Username and password required")
  else
    let username := default "" username in
    let password := default "" password in
    r ← db_query (db_fault env 0) (fun d => Sql.user_by_username d username);
    match r with
    | inl err => res_status_json 500 (BMessage "Database error")
    | inr None => res_status_json 401 (BMessage "Invalid credentials")
    | inr (Some user) =>
        let isValidPassword := bcrypt_compare password (u_password_hash user) in
        if negb isValidPassword then
          res_status_json 401 (BMessage "Invalid credentials")
        else
          let token :=
            jwt_sign {| jwt_id := u_id user; jwt_username := u_username user |}
              JWT_SECRET (now_ms env) expiresIn_7d in
          res_json (BAuth "Login successful" token
                      {| ui_id := u_id user; ui_username := u_username user |})
    end.

(** ** [GET /api/contacts] *)

Definition contacts_get (env : Env) (authorization : option string) : M unit :=
  authenticateToken env authorization (fun user =>
    let userId := jwt_id user in
    r ← db_query (db_fault env 0) (fun d => Sql.contacts_of d userId);
    match r with
    | inl err => res_status_json 500 (BMessage "Database error")
    | inr contacts =>
        res_json (BContacts
                    (List.map (fun '(i, n) => {| ui_id := i; ui_username := n |})
                       contacts))
    end).

(** ** [POST /api/contacts/add] *)

Definition contacts_add (env : Env) (authorization : option string)
    (username : option string) : M unit :=
  authenticateToken env authorization (fun user =>
    let userId := jwt_id user in
    if negb (truthy_str username) then
      res_status_json 400 (BMessage "Username required")
    else
      let username := default "" username in
      r ← db_query (db_fault env 0) (fun d => Sql.user_by_username d username);
      match r with
      | inl err => res_status_json 500 (BMessage "Database error")
      | inr None => res_status_json 404 (BMessage "User not found")
      | inr (Some contact) =>
          if String.eqb (u_id contact) userId then
            res_status_json 400 (BMessage "Cannot add yourself as a contact")
          else
            let contactId := generateId "contact_" env in
            e ← db_run (db_fault env 1)
                  (fun d => Sql.insert_contact d contactId userId (u_id contact))
                  (InsertContact contactId);
            match e with
            | Some err =>
                if is_constraint err then
                  res_status_json 400 (BMessage "Contact already exists")
                else
                  res_status_json 500 (BMessage "Error adding contact")
            | None =>
                res_json (BContact "Contact added successfully"
                            {| ui_id := u_id contact;
                               ui_username := u_username contact |})
            end
      end).

(** ** [POST /api/keys/exchange] *)

(** The [recipientKeys] object of the key exchange. *)
Definition make_recipientKeys (contact : UserRow) (preKeys : list PreKeyRow)
    (signedPreKeys : list SignedPreKeyRow) : RecipientKeys :=
  {| registrationId := of_nullable JNum (u_registration_id contact);
     identityKey := of_nullable JStr (u_identity_key contact);
     preKeyId := opt_chain (preKeys !! 0%nat) (fun k => JNum (pk_key_id k));
     preKeyPublic := opt_chain (preKeys !! 0%nat) (fun k => JStr (pk_public_key k));
     signedPreKeyId :=
       opt_chain (signedPreKeys !! 0%nat) (fun k => JNum (spk_key_id k));
     signedPreKeyPublic :=
       opt_chain (signedPreKeys !! 0%nat) (fun k => JStr (spk_public_key k));
     signedPreKeySignature :=
       opt_chain (signedPreKeys !! 0%nat) (fun k => JStr (spk_signature k)) |}.

Definition keys_exchange (env : Env) (authorization : option string)
    (contactId : option string) (publicKeyBundle : jsval) : M unit :=
  authenticateToken env authorization (fun user =>
    let userId := jwt_id user in
    if negb (truthy_str contactId) || negb (truthy publicKeyBundle) then
      res_status_json 400 (BMessage "Contact ID and public key bundle required")
    else
      let contactId := default "" contactId in
      r ← db_query (db_fault env 0) (fun d => Sql.user_by_id d contactId);
      match r with
      | inl err => res_status_json 500 (BMessage "Database error")
      | inr None => res_status_json 404 (BMessage "Contact not found")
      | inr (Some contact) =>
          r1 ← db_query (db_fault env 1) (fun d => Sql.pre_keys_of d contactId);
          match r1 with
          | inl err => res_status_json 500 (BMessage "Database error")
          | inr preKeys =>
              r2 ← db_query (db_fault env 2)
                     (fun d => Sql.signed_pre_keys_of d contactId);
              match r2 with
              | inl err => res_status_json 500 (BMessage "Database error")
              | inr signedPreKeys =>
                  let recipientKeys :=
                    make_recipientKeys contact preKeys signedPreKeys in
                  res_json (BKeys "Key exchange successful" recipientKeys)
              end
          end
      end).

(** ** [GET /api/messages/:contactId] *)

Definition messages_get (env : Env) (authorization : option string)
    (contactId : string) : M unit :=
  authenticateToken env authorization (fun user =>
    let userId := jwt_id user in
    r ← db_query (db_fault env 0) (fun d => Sql.messages_between d userId contactId);
    match r with
    | inl err => res_status_json 500 (BMessage "Database error")
    | inr rows => res_json (BMessages rows)
    end).

(** ** Socket handlers *)

(** [io.use]: the handshake is refused with an error, or the socket is
    tagged with the identity of the token. *)
Definition io_use (env : Env) (sid : string) (token : option string)
  : string + Socket :=
  if negb (truthy_str token) then inl "Authentication error"
  else
    match jwt_verify (default "" token) JWT_SECRET (now_ms env) with
    | inr decoded =>
        inr {| socket_id := sid; userId := jwt_id decoded;
               username := jwt_username decoded |}
    | inl err => inl "Authentication error"
    end.

(** [io.on('connection')] *)
Definition on_connection (socket : Socket) : M unit :=
  effect (ConsoleLog ("User " +:+ username socket +:+ " connected"));;
  connectedUsers_set (userId socket) socket.

(** [socket.on('send_message')] *)
Definition on_send_message (env : Env) (socket : Socket)
    (recipientId : option string) (encryptedMessage : jsval)
    (plainText : option string) : M unit :=
  let messageId := generateId "msg_" env in
  e ← db_run (db_fault env 0)
        (fun d => Sql.insert_message d
                    (Sql.message_row messageId (userId socket) recipientId
                       (JSON_stringify encryptedMessage) plainText
                       (now_ms env / 1000)))
        (InsertMessage messageId);
  match e with
  | Some err => effect (ConsoleError "Error saving message:")
  | None =>
      recipientSocket ← connectedUsers_get (default "" recipientId);
      match recipientSocket with
      | Some recipientSocket =>
          effect (Emit recipientSocket "message"
                    {| push_id := messageId;
                       push_senderId := userId socket;
                       push_encryptedMessage := encryptedMessage;
                       push_timestamp := now_ms env |})
      | None => mret tt
      end
  end.

(** [socket.on('disconnect')] *)
Definition on_disconnect (socket : Socket) : M unit :=
  effect (ConsoleLog ("User " +:+ username socket +:+ " disconnected"));;
  connectedUsers_delete (userId socket).

(** ** The server as a transition system *)

(** What reaches the server: a request on one of the six routes, a socket
    handshake, or an event on a connected socket. *)
Inductive Request :=
| PostRegister (username password : option string)
| PostLogin (username password : option string)
| GetContacts (authorization : option string)
| PostContactsAdd (authorization username : option string)
| PostKeysExchange (authorization contactId : option string) (publicKeyBundle : jsval)
| GetMessages (authorization : option string) (contactId : string)
| SocketConnect (sid : string) (token : option string)
| SocketSendMessage (socket : Socket) (recipientId : option string)
    (encryptedMessage : jsval) (plainText : option string)
| SocketDisconnect (socket : Socket).

(** A handshake runs [io.use]; the [connection] handler runs only when
    the middleware let the socket through. *)
Definition handle (env : Env) (r : Request) : M unit :=
  match r with
  | PostRegister username password => auth_register env username password
  | PostLogin username password => auth_login env username password
  | GetContacts authorization => contacts_get env authorization
  | PostContactsAdd authorization username =>
      contacts_add env authorization username
  | PostKeysExchange authorization contactId publicKeyBundle =>
      keys_exchange env authorization contactId publicKeyBundle
  | GetMessages authorization contactId =>
      messages_get env authorization contactId
  | SocketConnect sid token =>
      match io_use env sid token with
      | inr socket => on_connection socket
      | inl err => mret tt
      end
  | SocketSendMessage socket recipientId encryptedMessage plainText =>
      on_send_message env socket recipientId encryptedMessage plainText
  | SocketDisconnect socket => on_disconnect socket
  end.

(** The requests of a list, served one after the other. *)
Fixpoint serve (rs : list (Env * Request)) : M unit :=
  match rs with
  | [] => mret tt
  | (env, r) :: rs => handle env r;; serve rs
  end.

End Server.

(** ** A reference platform

    An executable instance of [Platform], used to run the handlers on
    concrete inputs.  A token is the text
    [secret.expiry.id.username]; a password hash is [salt$password]. *)

Module Reference.

Definition quote : string := String (ascii_of_nat 34) EmptyString.

(** Reads a decimal numeral. *)
Fixpoint parse_decimal (acc : Z) (s : string) : option Z :=
  match s with
  | EmptyString => Some acc
  | String c r =>
      let n := Z.of_nat (nat_of_ascii c) in
      if (48 <=? n) && (n <=? 57) then parse_decimal (10 * acc + (n - 48)) r
      else None
  end.

Definition sign (payload : JwtPayload) (secret : string) (now expiresIn : Z) : string :=
  secret +:+ "." +:+ pretty (now / 1000 + expiresIn) +:+ "." +:+
  jwt_id payload +:+ "." +:+ jwt_username payload.

Definition verify (token secret : string) (now : Z) : JwtError + JwtPayload :=
  match split "."%char token with
  | [s; e; i; u] =>
      if negb (String.eqb s secret) then inl (JsonWebTokenError "invalid signature")
      else match parse_decimal 0 e with
           | None => inl (JsonWebTokenError "jwt malformed")
           | Some exp =>
               if exp <=? now / 1000 then inl TokenExpiredError
               else inr {| jwt_id := i; jwt_username := u |}
           end
  | _ => inl (JsonWebTokenError "jwt malformed")
  end.

Definition hash (password : string) (rounds : nat) (salt : string) : string :=
  salt +:+ "$" +:+ password.

Definition compare (password hashed : string) : bool :=
  match split "$"%char hashed with
  | _ :: rest => String.eqb (String.concat "$" rest) password
  | [] => false
  end.

Fixpoint text (v : jsval) : string :=
  match v with
  | JUndefined | JNull => "null"
  | JBool b => if b then "true" else "false"
  | JNum z => pretty z
  | JStr s => quote +:+ s +:+ quote
  | JObj fields =>
      "{" +:+
      (fix members (l : list (string * jsval)) : string :=
         match l with
         | [] => EmptyString
         | (k, x) :: r =>
             quote +:+ k +:+ quote +:+ ":" +:+ text x +:+
             (match r with [] => EmptyString | _ => "," end) +:+ members r
         end) fields +:+
      "}"
  end.

#[global] Instance platform : Platform := {
  jwt_sign := sign;
  jwt_verify := verify;
  bcrypt_hash := hash;
  bcrypt_compare := compare;
  json_text := text;
}.

Definition no_fault : nat -> bool := fun _ => false.

Definition env_at (now : Z) (rnd : string) : Env :=
  {| now_ms := now; random36 := rnd; salt := "salt"; db_fault := no_fault |}.

Definition empty_db : Db :=
  {| users := []; contacts := []; messages := []; pre_keys := [];
     signed_pre_keys := [] |}.

Definition empty_world : World := {| db := empty_db; connectedUsers := ∅ |}.

End Reference.

(** ** Concrete scenarios *)

Module Scenario.
Import Reference.

(** The secret when [process.env.JWT_SECRET] is not set. *)
Definition secret : string := JWT_SECRET None.

(** Alice, Bob and Carol register, one second apart. *)
Definition registrations : list (Env * Request) :=
  [(env_at 1000 "aaaaaaaaa", PostRegister (Some "alice") (Some "secret1"));
   (env_at 2000 "bbbbbbbbb", PostRegister (Some "bob") (Some "secret2"));
   (env_at 3000 "ccccccccc", PostRegister (Some "carol") (Some "secret3"))].

Definition registered : World := (run (serve None registrations) empty_world).1.

Definition alice : JwtPayload :=
  {| jwt_id := "user_aaaaaaaaa1000"; jwt_username := "alice" |}.
Definition bob : JwtPayload :=
  {| jwt_id := "user_bbbbbbbbb2000"; jwt_username := "bob" |}.
Definition carol : JwtPayload :=
  {| jwt_id := "user_ccccccccc3000"; jwt_username := "carol" |}.

(** The row a registration left in the users table. *)
Definition user_row (p : JwtPayload) (password : string) : UserRow :=
  {| u_id := jwt_id p; u_username := jwt_username p;
     u_password_hash := hash password 10 "salt";
     u_registration_id := None; u_identity_key := None |}.

(** The token of a login at clock reading 4000. *)
Definition token_of (p : JwtPayload) : string := sign p secret 4000 expiresIn_7d.

(** The [Authorization] header a client sends. *)
Definition bearer (p : JwtPayload) : option string := Some ("Bearer " +:+ token_of p).

(** Alice's claims signed with another secret. *)
Definition forged_token : string := sign alice "not-the-secret" 4000 expiresIn_7d.

(** A clock reading more than seven days after the tokens were signed. *)
Definition eight_days_later : Z := 8 * 24 * 60 * 60 * 1000.

Definition alice_socket : Socket :=
  {| socket_id := "socket_a"; userId := jwt_id alice; username := "alice" |}.

Definition bob_socket : Socket :=
  {| socket_id := "socket_b"; userId := jwt_id bob; username := "bob" |}.

(** A second connection of Bob, opened while the first is registered. *)
Definition bob_socket_new : Socket :=
  {| socket_id := "socket_b2"; userId := jwt_id bob; username := "bob" |}.

(** Bob connects, and connects again half a second later. *)
Definition bob_connects_twice : list (Env * Request) :=
  [(env_at 5000 "ddddddddd", SocketConnect "socket_b" (Some (token_of bob)));
   (env_at 5500 "eeeeeeeee", SocketConnect "socket_b2" (Some (token_of bob)))].

Definition bob_one_time_key : PreKeyRow :=
  {| pk_id := "pk_1"; pk_user_id := jwt_id bob; pk_key_id := 7;
     pk_public_key := "bob-one-time-7" |}.

Definition bob_signed_key : SignedPreKeyRow :=
  {| spk_id := "spk_1"; spk_user_id := jwt_id bob; spk_key_id := 1;
     spk_public_key := "bob-signed-1"; spk_signature := "bob-signature" |}.

(** The three are registered, the store holds one one-time pre-key and a
    signed pre-key of Bob, and Bob is connected.  Nobody has added anybody
    as a contact. *)
Definition world_with_keys : World :=
  {| db := {| users := users (db registered); contacts := []; messages := [];
              pre_keys := [bob_one_time_key];
              signed_pre_keys := [bob_signed_key] |};
     connectedUsers := {[ jwt_id bob := bob_socket ]} |}.

(** The bundle the client of the repository submits
    ([getPublicKeyBundle] of the encryption context). *)
Definition demo_bundle : jsval :=
  JObj [("registrationId", JNum 12345);
        ("identityKey", JStr "demo-identity-key");
        ("preKeyId", JNum 1);
        ("preKeyPublic", JStr "demo-pre-key");
        ("signedPreKeyId", JNum 1);
        ("signedPreKeyPublic", JStr "demo-signed-pre-key");
        ("signedPreKeySignature", JStr "demo-signature")].

(** The bundle the store holds for Bob in [world_with_keys]. *)
Definition bob_bundle : RecipientKeys :=
  {| registrationId := JNull; identityKey := JNull;
     preKeyId := JNum 7; preKeyPublic := JStr "bob-one-time-7";
     signedPreKeyId := JNum 1; signedPreKeyPublic := JStr "bob-signed-1";
     signedPreKeySignature := JStr "bob-signature" |}.

(** The bundle answered for a principal without any key. *)
Definition keyless_bundle : RecipientKeys :=
  {| registrationId := JNull; identityKey := JNull;
     preKeyId := JUndefined; preKeyPublic := JUndefined;
     signedPreKeyId := JUndefined; signedPreKeyPublic := JUndefined;
     signedPreKeySignature := JUndefined |}.

(** What happens between Alice's and Carol's key exchange: Bob sends a
    message to Alice and Carol adds Alice as a contact. *)
Definition meanwhile : list (Env * Request) :=
  [(env_at 7000 "fffffffff",
    SocketSendMessage bob_socket (Some (jwt_id alice)) (JStr "c0") None);
   (env_at 8000 "ggggggggg", PostContactsAdd (bearer carol) (Some "alice"))].

(** Alice sends to Bob and, within the same second, Bob sends to Alice. *)
Definition two_sends : list (Env * Request) :=
  [(env_at 6000 "zzzzzzzzz",
    SocketSendMessage alice_socket (Some (jwt_id bob)) (JStr "c1") None);
   (env_at 6500 "aaaaaaaaa",
    SocketSendMessage bob_socket (Some (jwt_id alice)) (JStr "c2") None)].

Definition after_two_sends : World := (run (serve None two_sends) registered).1.

(** The two envelopes, in the order they were sent. *)
Definition two_envelopes : list MessageRow :=
  [{| m_id := "msg_zzzzzzzzz6000"; m_sender_id := jwt_id alice;
      m_recipient_id := jwt_id bob; m_encrypted_message := text (JStr "c1");
      m_plain_text := None; m_timestamp := 6 |};
   {| m_id := "msg_aaaaaaaaa6500"; m_sender_id := jwt_id bob;
      m_recipient_id := jwt_id alice; m_encrypted_message := text (JStr "c2");
      m_plain_text := None; m_timestamp := 6 |}].

End Scenario.

(** ** The first row of a table for an id *)

(** [o] is the first row of [rows] whose owner is [id]: a row of that
    owner with no row of that owner before it, or nothing when the table
    has no row of that owner. *)
Definition first_of {X} (owner : X -> string) (id : string) (rows : list X)
    (o : option X) : Prop :=
  match o with
  | Some x =>
      exists before after,
        rows = before ++ x :: after /\
        owner x = id /\
        forall y, y ∈ before -> owner y ≠ id
  | None => forall y, y ∈ rows -> owner y ≠ id
  end.

(** ** The [send_message] event as it arrives *)

(** The object a client passes with the event. *)
Record SendData := {
  sd_recipientId : option string;
  sd_encryptedMessage : jsval;
  sd_plainText : option string;
}.

(** An exception no handler catches; it ends the server process. *)
Inductive Uncaught :=
| UncaughtTypeError.

(** The listener of [send_message] from its first line: [data] is
    nothing when the event came without payload ([undefined] or [null]),
    and then [const { recipientId, encryptedMessage, plainText } = data]
    throws, outside any [try]. *)
Definition receive_send_message `{Platform} (env : Env) (socket : Socket)
    (data : option SendData) (w : World) : Uncaught + World * list Effect :=
  match data with
  | None => inl UncaughtTypeError
  | Some d =>
      inr (run (on_send_message env socket (sd_recipientId d)
                  (sd_encryptedMessage d) (sd_plainText d)) w)
  end.

(** ** What a trace shows *)

(** The status of the HTTP answer in a trace. *)
Definition status_of (t : list Effect) : option nat :=
  head (omap (fun e => match e with Respond st _ => Some st | _ => None end) t).

(** The effects of a trace that reach the store or a socket: the only two
    ways the server has to hand data to another client. *)
Definition relaying (t : list Effect) : list Effect :=
  List.filter (fun e => match e with
                        | Committed _ | Emit _ _ _ => true
                        | _ => false
                        end) t.

(** The row a [send_message] event asks the store to insert. *)
Definition sent_row `{Platform} (env : Env) (socket : Socket)
    (recipientId : option string) (encryptedMessage : jsval)
    (plainText : option string) : option MessageRow :=
  Sql.message_row (generateId "msg_" env) (userId socket) recipientId
    (JSON_stringify encryptedMessage) plainText (now_ms env / 1000).

(** ** Orders on envelopes *)

Definition by_timestamp (x y : MessageRow) : Prop :=
  m_timestamp x <= m_timestamp y.

(** The compound key [(timestamp, id)], ids compared as strings. *)
Definition by_timestamp_then_id (x y : MessageRow) : Prop :=
  m_timestamp x < m_timestamp y \/
  (m_timestamp x = m_timestamp y /\ String.leb (m_id x) (m_id y) = true).

(** The rows of second [t], in the order of the list. *)
Definition at_second (t : Z) (l : list MessageRow) : list MessageRow :=
  List.filter (fun m => Z.eqb (m_timestamp m) t) l.

(** ** The client

    The part of the mobile client that reads what the history route
    answers: the history view of the chat screen and the [decryptMessage]
    of the encryption context it calls.  A React state is the value it
    holds once the function has returned. *)

Module Client.

(** *** JavaScript objects *)

(** [o.k]: [undefined] when [o] has no such property. *)
Fixpoint get_field (k : string) (o : list (string * jsval)) : jsval :=
  match o with
  | [] => JUndefined
  | (k', v) :: r => if String.eqb k' k then v else get_field k r
  end.

(** The object [{ ...o, k: v }]. *)
Fixpoint set_field (k : string) (v : jsval) (o : list (string * jsval))
  : list (string * jsval) :=
  match o with
  | [] => [(k, v)]
  | (k', v') :: r =>
      if String.eqb k' k then (k, v) :: r else (k', v') :: set_field k v r
  end.

(** [v === s] for a string [s]. *)
Definition strict_eq_str (v : jsval) (s : string) : bool :=
  match v with
  | JStr s' => String.eqb s' s
  | _ => false
  end.

(** *** What the server sends *)

(** A row of the messages table as [db.all] hands it to [res.json]: an
    object keyed by the column names of the schema.  [datetime] is the
    text SQLite stores for a second. *)
Definition row_fields (datetime : Z -> string) (m : MessageRow)
  : list (string * jsval) :=
  [("id", JStr (m_id m));
   ("sender_id", JStr (m_sender_id m));
   ("recipient_id", JStr (m_recipient_id m));
   ("encrypted_message", JStr (m_encrypted_message m));
   ("plain_text", of_nullable JStr (m_plain_text m));
   ("timestamp", JStr (datetime (m_timestamp m)))].

(** [response.ok] *)
Definition response_ok (status : nat) : bool :=
  (200 <=? status)%nat && (status <=? 299)%nat.

(** *** The encryption context *)

(** [CryptoJS.AES.decrypt(body, key).toString(CryptoJS.enc.Utf8)], which
    may throw. *)
Class CryptoJS := {
  aes_decrypt_utf8 : jsval -> string -> option string;
}.

Record EncryptionState := {
  encryptionKey : option string;
  isInitialized : bool;
}.

Inductive Thrown :=
| Error (message : string)
| TypeError
| CryptoError.

(** [decryptMessage]: reading [.body] of [undefined] or [null] throws. *)
Definition decryptMessage `{CryptoJS} (st : EncryptionState)
    (encryptedMessage : jsval) : Thrown + string :=
  if negb (isInitialized st) || negb (truthy_str (encryptionKey st)) then
    inl (Error "Encryption not initialized")
  else
    match encryptedMessage with
    | JUndefined | JNull => inl TypeError
    | _ =>
        let body := match encryptedMessage with
                    | JObj fields => get_field "body" fields
                    | _ => JUndefined
                    end in
        match aes_decrypt_utf8 body (default EmptyString (encryptionKey st)) with
        | None => inl CryptoError
        | Some plaintext =>
            if negb (truthy_str (Some plaintext)) then
              inl (Error "Decryption failed - invalid key or corrupted data")
            else inr plaintext
        end
    end.

(** *** The history view *)

(** The function [loadMessages] maps over [data.messages]; [userId] is
    [user.id] of the authentication context. *)
Definition shown `{CryptoJS} (st : EncryptionState) (userId : string)
    (msg : list (string * jsval)) : list (string * jsval) :=
  if negb (strict_eq_str (get_field "senderId" msg) userId) then
    match decryptMessage st (get_field "encryptedMessage" msg) with
    | inr decryptedText =>
        set_field "isEncrypted" (JBool true)
          (set_field "text" (JStr decryptedText) msg)
    | inl _ =>
        set_field "isEncrypted" (JBool false)
          (set_field "text" (JStr "[Decryption failed]") msg)
    end
  else
    set_field "isEncrypted" (JBool true)
      (set_field "text" (get_field "plainText" msg) msg).

(** The messages [loadMessages] sets for a response of the history
    route; the state is left alone when the response is not ok. *)
Definition loadMessages `{CryptoJS} (datetime : Z -> string)
    (st : EncryptionState) (userId : string) (response : nat * Body)
  : option (list (list (string * jsval))) :=
  match response with
  | (status, BMessages rows) =>
      if response_ok status
      then Some (List.map (fun m => shown st userId (row_fields datetime m)) rows)
      else None
  | _ => None
  end.

End Client.

(** An executable stand-in for the cipher of the client: the plain text
    is the body. *)
Module ClientReference.

#[global] Instance cryptojs : Client.CryptoJS := {
  Client.aes_decrypt_utf8 body key :=
    match body with JStr s => Some s | _ => None end;
}.

Definition ready : Client.EncryptionState :=
  {| Client.encryptionKey := Some "key"; Client.isInitialized := true |}.

(** SQLite's text for a second, as far as the examples need it. *)
Definition datetime (t : Z) : string := "1970-01-01 00:00:0" +:+ pretty t.

End ClientReference.

(** More inputs for the examples. *)
Module Cases.
Import Reference Scenario.

(** A run in which every database call fails. *)
Definition env_down : Env :=
  {| now_ms := 9000; random36 := "ddddddddd"; salt := "salt";
     db_fault := fun _ => true |}.

(** The contact row Alice's adding of Bob inserts at clock reading 5000. *)
Definition alice_adds_bob : Env := env_at 5000 "kkkkkkkkk".

(** The envelope of Alice's send to Bob at clock reading 6000. *)
Definition alice_to_bob : MessageRow :=
  {| m_id := "msg_zzzzzzzzz6000"; m_sender_id := jwt_id alice;
     m_recipient_id := jwt_id bob; m_encrypted_message := text (JStr "c1");
     m_plain_text := Some "hello"; m_timestamp := 6 |}.

End Cases.

(** ** Requests, answers and the shape of the store *)


(** The HTTP answers of a trace, in order. *)
Definition responses (t : list Effect) : list (nat * Body) :=
  omap (fun e => match e with Respond st b => Some (st, b) | _ => None end) t.

(** The events emitted in a trace, in order. *)
Definition emitted (t : list Effect) : list (Socket * string * MessagePush) :=
  omap (fun e => match e with Emit to ev p => Some (to, ev, p) | _ => None end) t.

(** The character [c] occurs in [s]. *)
Fixpoint mentions (c : ascii) (s : string) : bool :=
  match s with
  | EmptyString => false
  | String c' r => Ascii.eqb c' c || mentions c r
  end.

(** What the [PRIMARY KEY] and [UNIQUE] constraints of the schema say of
    the three tables the server writes. *)
Definition keys_unique (d : Db) : Prop :=
  NoDup (u_id <$> users d) /\
  NoDup (u_username <$> users d) /\
  NoDup (c_id <$> contacts d) /\
  NoDup ((fun c => (c_user_id c, c_contact_id c)) <$> contacts d) /\
  NoDup (m_id <$> messages d).

(** Every table of [d] is the beginning of the same table of [d']. *)
Definition grows (d d' : Db) : Prop :=
  users d `prefix_of` users d' /\
  contacts d `prefix_of` contacts d' /\
  messages d `prefix_of` messages d' /\
  pre_keys d' = pre_keys d /\
  signed_pre_keys d' = signed_pre_keys d.

(** A store that holds no key material: the two key tables are empty and
    no user row has a registration id or an identity key. *)
Definition keyless (d : Db) : Prop :=
  pre_keys d = [] /\
  signed_pre_keys d = [] /\
  forall u, u ∈ users d -> u_registration_id u = None /\ u_identity_key u = None.

(** * Properties *)

Ltac unfold_M :=
  unfold run, res_json, res_status_json, effect, db_query, db_run,
    connectedUsers_get, connectedUsers_set, connectedUsers_delete,
    mbind, M_bind, mret, M_ret in *.

(** Case analysis on an innermost scrutinee of the goal. *)
Ltac branch :=
  match goal with
  | |- context [match ?x with _ => _ end] =>
      lazymatch x with
      | context [match _ with _ => _ end] => fail
      | _ => destruct x eqn:?
      end
  end.

Ltac unfold_handlers :=
  unfold handle, auth_register, auth_login, contacts_get, contacts_add,
    keys_exchange,
    messages_get, on_connection, on_send_message, on_disconnect,
    authenticateToken, Sql.insert_user, Sql.insert_contact, Sql.insert_message.

(** ** Lists and queries *)

Section Queries.

Lemma first_None_existsb {A} (p : A -> bool) (l : list A) :
  Sql.first p l = None -> existsb p l = false.
Proof.
  unfold Sql.first. induction l as [|a l IH]; simpl; [done|].
  destruct (p a); simpl; [discriminate | exact IH].
Qed.

Lemma first_app_new {A} (p : A -> bool) (l : list A) (x : A) :
  Sql.first p l = None -> p x = true -> Sql.first p (l ++ [x]) = Some x.
Proof.
  unfold Sql.first. intros Hl Hx. rewrite List.filter_app. simpl. rewrite Hx.
  destruct (List.filter p l); [reflexivity | discriminate].
Qed.

Lemma first_app_old {A} (p : A -> bool) (l l' : list A) (x : A) :
  Sql.first p l = Some x -> Sql.first p (l ++ l') = Some x.
Proof.
  unfold Sql.first. intros Hl. rewrite List.filter_app.
  destruct (List.filter p l); [discriminate | exact Hl].
Qed.

Lemma existsb_orb {A} (p q : A -> bool) (l : list A) :
  existsb (fun x => p x || q x) l = existsb p l || existsb q l.
Proof.
  induction l as [|a l IH]; simpl; [done|]. rewrite IH.
  destruct (p a), (q a), (existsb p l), (existsb q l); reflexivity.
Qed.

Lemma filter_none {A} (p : A -> bool) (l : list A) :
  (forall x, x ∈ l -> p x = false) -> List.filter p l = [].
Proof.
  induction l as [|y l IH]; simpl; intros Hl; [done|].
  rewrite (Hl y) by apply list_elem_of_here.
  apply IH. intros x Hx. apply Hl. by apply list_elem_of_further.
Qed.

(** An insert with a fresh id and a fresh username appends the row. *)
Lemma insert_user_fresh d id name hashed :
  Sql.user_by_id d id = None ->
  Sql.user_by_username d name = None ->
  Sql.insert_user d id name hashed
  = inr {| users := users d ++
             [{| u_id := id; u_username := name; u_password_hash := hashed;
                 u_registration_id := None; u_identity_key := None |}];
           contacts := contacts d; messages := messages d;
           pre_keys := pre_keys d; signed_pre_keys := signed_pre_keys d |}.
Proof.
  intros Hid Hname. unfold Sql.insert_user.
  rewrite (existsb_orb (fun u => String.eqb (u_id u) id)
             (fun u => String.eqb (u_username u) name)).
  rewrite (first_None_existsb _ _ Hid), (first_None_existsb _ _ Hname).
  reflexivity.
Qed.

Lemma insert_message_inr d row d' :
  Sql.insert_message d row = inr d' ->
  exists m, row = Some m /\ messages d' = messages d ++ [m].
Proof.
  unfold Sql.insert_message. destruct row as [m|]; [|discriminate].
  destruct (existsb _ _); [discriminate|].
  intros [= <-]. eauto.
Qed.

Lemma truthy_str_Some s : s ≠ EmptyString -> truthy_str (Some s) = true.
Proof.
  intros Hs. unfold truthy_str.
  destruct (String.eqb_spec s EmptyString); [congruence | reflexivity].
Qed.

Lemma isLength_bounds str (lo hi : nat) :
  (lo <= String.length str <= hi)%nat -> isLength str lo (Some hi) = true.
Proof.
  intros [Hlo Hhi]. unfold isLength.
  apply andb_true_intro. split; by apply Nat.leb_le.
Qed.

Lemma isLength_min str (lo : nat) :
  (lo <= String.length str)%nat -> isLength str lo None = true.
Proof.
  intros Hlo. unfold isLength. rewrite andb_true_r. by apply Nat.leb_le.
Qed.

Lemma nonempty_of_length str (n : nat) :
  (S n <= String.length str)%nat -> str ≠ EmptyString.
Proof. intros Hn ->. simpl in Hn. lia. Qed.

End Queries.

(** ** The middleware *)

Section Middleware.

Context `{Platform} (penv : option string).

(** A request whose bearer token verifies is handed to the route. *)
Lemma authenticateToken_accept env auth tok user next :
  bearer_token auth = Some tok ->
  tok ≠ EmptyString ->
  jwt_verify tok (JWT_SECRET penv) (now_ms env) = inr user ->
  authenticateToken penv env auth next = next user.
Proof.
  intros Hb Ht Hv. unfold authenticateToken.
  rewrite Hb, (truthy_str_Some _ Ht). simpl. by rewrite Hv.
Qed.

(** A request the middleware refuses never reaches the route: the world
    is untouched and the trace is the refusal. *)
Lemma authenticateToken_refuse env auth tok err next w :
  bearer_token auth = Some tok ->
  tok ≠ EmptyString ->
  jwt_verify tok (JWT_SECRET penv) (now_ms env) = inl err ->
  authenticateToken penv env auth next w
  = (tt, w, [Respond 403 (BMessage "Invalid token")]).
Proof.
  intros Hb Ht Hv. unfold authenticateToken.
  rewrite Hb, (truthy_str_Some _ Ht). simpl. by rewrite Hv.
Qed.

End Middleware.

(** ** What no request changes *)

Section Invariants.

Context `{Platform} (penv : option string).

Lemma run_bind {A} (m : M A) (k : A -> M unit) w :
  run (m ≫= k) w
  = let '(a, w1, t1) := m w in
    ((run (k a) w1).1, t1 ++ (run (k a) w1).2).
Proof.
  unfold run, mbind, M_bind.
  destruct (m w) as [[a w1] t1]. destruct (k a w1) as [[b w2] t2]. reflexivity.
Qed.

(** A property of the world that every request keeps is kept by every
    sequence of requests. *)
Lemma serve_invariant (P : World -> Prop) :
  (forall env r w, P w -> P (run (handle penv env r) w).1) ->
  forall rs w, P w -> P (run (serve penv rs) w).1.
Proof.
  intros Hstep rs. induction rs as [|[env r] rs IH]; intros w Hw; [done|].
  simpl. rewrite run_bind.
  specialize (Hstep env r w Hw). unfold run in Hstep.
  destruct (handle penv env r w) as [[[] w1] t1]. simpl in *.
  by apply IH.
Qed.

(** No request writes the two key tables. *)
Lemma handle_keeps_keys env r w :
  pre_keys (db (run (handle penv env r) w).1) = pre_keys (db w) /\
  signed_pre_keys (db (run (handle penv env r) w).1) = signed_pre_keys (db w).
Proof.
  destruct r; unfold_handlers.
  all: unfold_M; repeat (branch; simpl); auto.
Qed.

Lemma serve_keeps_keys rs w :
  pre_keys (db (run (serve penv rs) w).1) = pre_keys (db w) /\
  signed_pre_keys (db (run (serve penv rs) w).1) = signed_pre_keys (db w).
Proof.
  apply (serve_invariant
           (fun w' => pre_keys (db w') = pre_keys (db w) /\
                      signed_pre_keys (db w') = signed_pre_keys (db w)));
    [|done].
  intros env r w' [Hp Hs]. destruct (handle_keeps_keys env r w') as [Hp' Hs'].
  split; congruence.
Qed.

(** The row a handle resolves to stays the row it resolves to: rows are
    only appended to the users table, and never under a handle that is
    taken. *)
Lemma handle_keeps_user env r w name row :
  Sql.user_by_username (db w) name = Some row ->
  Sql.user_by_username (db (run (handle penv env r) w).1) name = Some row.
Proof.
  intros Hrow. destruct r; unfold_handlers.
  all: unfold_M; repeat (branch; simpl); try done.
  unfold Sql.user_by_username in *. simpl. by apply first_app_old.
Qed.

Lemma serve_keeps_user rs w name row :
  Sql.user_by_username (db w) name = Some row ->
  Sql.user_by_username (db (run (serve penv rs) w).1) name = Some row.
Proof.
  apply (serve_invariant
           (fun w' => Sql.user_by_username (db w') name = Some row)).
  intros env r w'. apply handle_keeps_user.
Qed.

End Invariants.

(** ** Credentials *)

Section Credentials.

Context `{Platform} (penv : option string).

(** A registration with valid input, a free handle and a fresh id. *)
Lemma auth_register_ok env handle secret w :
  (3 <= String.length handle <= 30)%nat ->
  (6 <= String.length secret)%nat ->
  Sql.user_by_username (db w) handle = None ->
  Sql.user_by_id (db w) (generateUserId env) = None ->
  db_fault env 0 = false ->
  db_fault env 1 = false ->
  exists w1,
    run (auth_register penv env (Some handle) (Some secret)) w
    = (w1,
       [Committed (InsertUser (generateUserId env));
        Respond 200
          (BAuth "User created successfully"
             (jwt_sign {| jwt_id := generateUserId env; jwt_username := handle |}
                (JWT_SECRET penv) (now_ms env) expiresIn_7d)
             {| ui_id := generateUserId env; ui_username := handle |})]) /\
    Sql.user_by_username (db w1) handle
    = Some {| u_id := generateUserId env; u_username := handle;
              u_password_hash := bcrypt_hash secret 10 (salt env);
              u_registration_id := None; u_identity_key := None |}.
Proof.
  intros Hh Hs Hfree Hfresh R0 R1.
  assert (Hh0 : handle ≠ EmptyString) by (apply (nonempty_of_length _ 2); lia).
  assert (Hs0 : secret ≠ EmptyString) by (apply (nonempty_of_length _ 5); lia).
  eexists. split.
  - unfold run, auth_register.
    rewrite (truthy_str_Some _ Hh0), (truthy_str_Some _ Hs0). simpl.
    rewrite (isLength_bounds _ _ _ Hh), (isLength_min _ _ Hs). simpl.
    unfold_M. rewrite R0, Hfree, R1. simpl.
    rewrite (insert_user_fresh _ _ _ _ Hfresh Hfree). reflexivity.
  - unfold Sql.user_by_username in *. simpl.
    apply first_app_new; [exact Hfree | apply String.eqb_refl].
Qed.

(** A login with the password of the row the handle resolves to. *)
Lemma auth_login_ok env handle secret row w :
  handle ≠ EmptyString ->
  secret ≠ EmptyString ->
  db_fault env 0 = false ->
  Sql.user_by_username (db w) handle = Some row ->
  bcrypt_compare secret (u_password_hash row) = true ->
  run (auth_login penv env (Some handle) (Some secret)) w
  = (w,
     [Respond 200
        (BAuth "Login successful"
           (jwt_sign {| jwt_id := u_id row; jwt_username := u_username row |}
              (JWT_SECRET penv) (now_ms env) expiresIn_7d)
           {| ui_id := u_id row; ui_username := u_username row |})]).
Proof.
  intros Hh0 Hs0 L0 Hrow Hbcrypt. unfold run, auth_login.
  rewrite (truthy_str_Some _ Hh0), (truthy_str_Some _ Hs0). simpl.
  unfold_M. rewrite L0, Hrow. simpl. rewrite Hbcrypt. reflexivity.
Qed.

(** C8: a handle of 3 to 30 characters that is not taken and a secret of
    at least 6 characters register; a login with the same pair, made after
    any further requests the server has served, succeeds; and the token of
    the login verifies to the id the registration created.  The two runs
    are made where the store answers and the generated id is fresh, with a
    bcrypt that accepts the password it hashed and a token library that
    verifies, at the time of the check, the token it signed at the
    login. *)
Theorem register_login_verify env_r env_l now_v handle secret between w :
  (3 <= String.length handle <= 30)%nat ->
  (6 <= String.length secret)%nat ->
  Sql.user_by_username (db w) handle = None ->
  Sql.user_by_id (db w) (generateUserId env_r) = None ->
  db_fault env_r 0 = false ->
  db_fault env_r 1 = false ->
  db_fault env_l 0 = false ->
  bcrypt_compare secret (bcrypt_hash secret 10 (salt env_r)) = true ->
  jwt_verify
    (jwt_sign {| jwt_id := generateUserId env_r; jwt_username := handle |}
       (JWT_SECRET penv) (now_ms env_l) expiresIn_7d)
    (JWT_SECRET penv) now_v
  = inr {| jwt_id := generateUserId env_r; jwt_username := handle |} ->
  exists w1 w2 token_r token_l,
    run (auth_register penv env_r (Some handle) (Some secret)) w
    = (w1,
       [Committed (InsertUser (generateUserId env_r));
        Respond 200
          (BAuth "User created successfully" token_r
             {| ui_id := generateUserId env_r; ui_username := handle |})]) /\
    (run (serve penv between) w1).1 = w2 /\
    run (auth_login penv env_l (Some handle) (Some secret)) w2
    = (w2,
       [Respond 200
          (BAuth "Login successful" token_l
             {| ui_id := generateUserId env_r; ui_username := handle |})]) /\
    exists principal,
      jwt_verify token_l (JWT_SECRET penv) now_v = inr principal /\
      jwt_id principal = generateUserId env_r.
Proof.
  intros Hh Hs Hfree Hfresh R0 R1 L0 Hbcrypt Hjwt.
  destruct (auth_register_ok env_r handle secret w Hh Hs Hfree Hfresh R0 R1)
    as (w1 & Hreg & Hrow).
  exists w1, (run (serve penv between) w1).1. eexists _, _.
  split; [exact Hreg|]. split; [reflexivity|]. split.
  - apply (serve_keeps_user penv between) in Hrow.
    rewrite (auth_login_ok env_l handle secret _ _ ltac:(apply (nonempty_of_length _ 2); lia)
               ltac:(apply (nonempty_of_length _ 5); lia) L0 Hrow Hbcrypt).
    reflexivity.
  - eexists. split; [exact Hjwt | reflexivity].
Qed.

End Credentials.

(** ** Tokens and contacts *)

Section TokenClaims.

Context `{Platform} (penv : option string).

(** C9: a token that has expired and a token whose signature does not
    match are refused with the same answer.  On every route behind the
    middleware both runs leave the world untouched and answer 403
    [Invalid token]; at the socket handshake both are refused with the
    error [Authentication error].  The two runs may be made at different
    times and on different sockets. *)
Theorem expired_and_forged_tokens_indistinguishable
    env_e env_f auth_e auth_f tok_e tok_f reason sid_e sid_f next w :
  bearer_token auth_e = Some tok_e ->
  tok_e ≠ EmptyString ->
  jwt_verify tok_e (JWT_SECRET penv) (now_ms env_e) = inl TokenExpiredError ->
  bearer_token auth_f = Some tok_f ->
  tok_f ≠ EmptyString ->
  jwt_verify tok_f (JWT_SECRET penv) (now_ms env_f)
  = inl (JsonWebTokenError reason) ->
  authenticateToken penv env_e auth_e next w
  = authenticateToken penv env_f auth_f next w /\
  authenticateToken penv env_e auth_e next w
  = (tt, w, [Respond 403 (BMessage "Invalid token")]) /\
  io_use penv env_e sid_e (Some tok_e) = io_use penv env_f sid_f (Some tok_f) /\
  io_use penv env_e sid_e (Some tok_e) = inl "Authentication error".
Proof.
  intros Be Te Ve Bf Tf Vf.
  rewrite (authenticateToken_refuse penv env_e auth_e tok_e _ next w Be Te Ve).
  rewrite (authenticateToken_refuse penv env_f auth_f tok_f _ next w Bf Tf Vf).
  unfold io_use.
  rewrite (truthy_str_Some _ Te), (truthy_str_Some _ Tf). simpl.
  rewrite Ve, Vf. auto.
Qed.

(** C4 (as amended): adding one's own handle is refused with 400
    [Cannot add yourself as a contact] when the handle resolves to the
    caller's own row; when no principal has the handle the lookup fails
    first and the answer is 404 [User not found]. *)
Theorem contacts_add_self env auth tok user w :
  bearer_token auth = Some tok ->
  tok ≠ EmptyString ->
  jwt_verify tok (JWT_SECRET penv) (now_ms env) = inr user ->
  jwt_username user ≠ EmptyString ->
  db_fault env 0 = false ->
  (forall row,
     Sql.user_by_username (db w) (jwt_username user) = Some row ->
     u_id row = jwt_id user ->
     run (contacts_add penv env auth (Some (jwt_username user))) w
     = (w, [Respond 400 (BMessage "Cannot add yourself as a contact")])) /\
  (Sql.user_by_username (db w) (jwt_username user) = None ->
   run (contacts_add penv env auth (Some (jwt_username user))) w
   = (w, [Respond 404 (BMessage "User not found")])).
Proof.
  intros Hb Ht Hv Hn F0.
  split; [intros row Hrow Hid | intros Hrow]; unfold run, contacts_add.
  all: rewrite (authenticateToken_accept _ _ _ _ _ _ Hb Ht Hv).
  all: rewrite (truthy_str_Some _ Hn); simpl; unfold_M.
  all: rewrite F0, Hrow; simpl.
  - rewrite Hid, String.eqb_refl. reflexivity.
  - reflexivity.
Qed.

End TokenClaims.

(** ** The key exchange *)

Section KeyExchange.

Context `{Platform} (penv : option string).

(** The route reads the store and answers once; it writes nothing and
    emits nothing, whatever the request is. *)
Lemma keys_exchange_read_only env auth contactId bundle w :
  exists st body,
    keys_exchange penv env auth contactId bundle w = (tt, w, [Respond st body]).
Proof.
  unfold keys_exchange, authenticateToken. unfold_M.
  repeat (branch; simpl); eauto.
Qed.

(** The answer for a principal that exists, when the store answers. *)
Lemma keys_exchange_found env auth tok user cid bundle contact w :
  bearer_token auth = Some tok ->
  tok ≠ EmptyString ->
  jwt_verify tok (JWT_SECRET penv) (now_ms env) = inr user ->
  cid ≠ EmptyString ->
  truthy bundle = true ->
  db_fault env 0 = false -> db_fault env 1 = false -> db_fault env 2 = false ->
  Sql.user_by_id (db w) cid = Some contact ->
  run (keys_exchange penv env auth (Some cid) bundle) w
  = (w,
     [Respond 200
        (BKeys "Key exchange successful"
           (make_recipientKeys contact (Sql.pre_keys_of (db w) cid)
              (Sql.signed_pre_keys_of (db w) cid)))]).
Proof.
  intros Hb Ht Hv Hc Hp F0 F1 F2 Hu. unfold run, keys_exchange.
  rewrite (authenticateToken_accept _ _ _ _ _ _ Hb Ht Hv).
  rewrite (truthy_str_Some _ Hc), Hp. simpl. unfold_M.
  rewrite F0, F1, F2, Hu. reflexivity.
Qed.

(** A successful answer carries the bundle built from the principal's row
    and the first key rows the store holds for it. *)
Lemma keys_exchange_success_inv env auth cid bundle w message keys :
  (run (keys_exchange penv env auth (Some cid) bundle) w).2
  = [Respond 200 (BKeys message keys)] ->
  exists contact,
    Sql.user_by_id (db w) cid = Some contact /\
    keys = make_recipientKeys contact (Sql.pre_keys_of (db w) cid)
             (Sql.signed_pre_keys_of (db w) cid).
Proof.
  unfold keys_exchange, authenticateToken. unfold_M.
  repeat (branch; simpl); intros; simplify_eq; eauto.
Qed.

(** C1 (as amended): the key exchange does not consume one-time pre-keys.
    A successful call leaves the world as it found it, and no other
    request writes the key tables; so whatever the server serves in
    between, the next successful call for the same principal hands out the
    same one-time pre-key: the first row the store holds for that
    principal. *)
Theorem keys_exchange_does_not_consume
    env1 env2 auth1 auth2 cid b1 b2 between w m1 m2 k1 k2 :
  (run (keys_exchange penv env1 auth1 (Some cid) b1) w).2
  = [Respond 200 (BKeys m1 k1)] ->
  (run (keys_exchange penv env2 auth2 (Some cid) b2)
     (run (serve penv between)
        (run (keys_exchange penv env1 auth1 (Some cid) b1) w).1).1).2
  = [Respond 200 (BKeys m2 k2)] ->
  (run (keys_exchange penv env1 auth1 (Some cid) b1) w).1 = w /\
  preKeyId k2 = preKeyId k1 /\
  preKeyPublic k2 = preKeyPublic k1 /\
  preKeyId k1
  = opt_chain (Sql.pre_keys_of (db w) cid !! 0%nat) (fun k => JNum (pk_key_id k)) /\
  preKeyPublic k1
  = opt_chain (Sql.pre_keys_of (db w) cid !! 0%nat) (fun k => JStr (pk_public_key k)).
Proof.
  intros H1 H2.
  assert (Hw : (run (keys_exchange penv env1 auth1 (Some cid) b1) w).1 = w).
  { destruct (keys_exchange_read_only env1 auth1 (Some cid) b1 w)
      as (st & body & E).
    unfold run. by rewrite E. }
  rewrite Hw in H2.
  apply keys_exchange_success_inv in H1 as (c1 & Hc1 & ->).
  apply keys_exchange_success_inv in H2 as (c2 & Hc2 & ->).
  destruct (serve_keeps_keys penv between w) as [Hp _].
  unfold Sql.pre_keys_of. simpl. rewrite Hp. auto.
Qed.

(** C2 (as amended): the key exchange only tests that a bundle was
    submitted.  Two runs that differ in the submitted bundle alone are the
    same computation: the same answer, the same world, and nothing written
    to the store or emitted to a socket. *)
Theorem keys_exchange_discards_bundle env auth contactId b1 b2 w :
  truthy b1 = true ->
  truthy b2 = true ->
  keys_exchange penv env auth contactId b1 w
  = keys_exchange penv env auth contactId b2 w /\
  (run (keys_exchange penv env auth contactId b1) w).1 = w /\
  relaying (run (keys_exchange penv env auth contactId b1) w).2 = [].
Proof.
  intros T1 T2. split.
  - unfold keys_exchange. by rewrite T1, T2.
  - destruct (keys_exchange_read_only env auth contactId b1 w)
      as (st & body & E).
    unfold run. by rewrite E.
Qed.


Lemma first_of_filter {X} (owner : X -> string) id rows o :
  first_of owner id rows o ->
  head (List.filter (fun x => String.eqb (owner x) id) rows) = o.
Proof.
  destruct o as [x|]; simpl.
  - intros (before & after & -> & Hx & Hbefore).
    rewrite List.filter_app, filter_none.
    + simpl. rewrite Hx, String.eqb_refl. reflexivity.
    + intros y Hy. apply String.eqb_neq. by apply Hbefore.
  - intros Hnone. rewrite filter_none; [reflexivity|].
    intros y Hy. apply String.eqb_neq. by apply Hnone.
Qed.

Lemma take_1_head {X} (l : list X) : take 1 l !! 0%nat = head l.
Proof. by destruct l. Qed.

(** C10: the key exchange looks the principal up by id and nothing else.
    Whatever the contacts table holds, and so also when it holds no edge
    between the caller and the principal, an authenticated caller is
    answered 200 with the principal's bundle: the registration id and the
    identity key of the first user row with the submitted id (null where
    the column is), the key id and the public key of the first one-time
    pre-key row of that id, and the key id, the public key and the
    signature of its first signed pre-key row (undefined where the table
    has no row of that id). *)
Theorem keys_exchange_needs_no_contact_edge
    env auth tok user cid bundle (d : Db) (cs : list ContactRow) conn
    (contact : UserRow) (one_time : option PreKeyRow)
    (signed : option SignedPreKeyRow) :
  bearer_token auth = Some tok ->
  tok ≠ EmptyString ->
  jwt_verify tok (JWT_SECRET penv) (now_ms env) = inr user ->
  cid ≠ EmptyString ->
  truthy bundle = true ->
  db_fault env 0 = false -> db_fault env 1 = false -> db_fault env 2 = false ->
  first_of u_id cid (users d) (Some contact) ->
  first_of pk_user_id cid (pre_keys d) one_time ->
  first_of spk_user_id cid (signed_pre_keys d) signed ->
  run (keys_exchange penv env auth (Some cid) bundle)
    {| db := set_contacts cs d; connectedUsers := conn |}
  = ({| db := set_contacts cs d; connectedUsers := conn |},
     [Respond 200
        (BKeys "Key exchange successful"
           {| registrationId :=
                match u_registration_id contact with
                | Some r => JNum r
                | None => JNull
                end;
              identityKey :=
                match u_identity_key contact with
                | Some k => JStr k
                | None => JNull
                end;
              preKeyId :=
                match one_time with
                | Some k => JNum (pk_key_id k)
                | None => JUndefined
                end;
              preKeyPublic :=
                match one_time with
                | Some k => JStr (pk_public_key k)
                | None => JUndefined
                end;
              signedPreKeyId :=
                match signed with
                | Some k => JNum (spk_key_id k)
                | None => JUndefined
                end;
              signedPreKeyPublic :=
                match signed with
                | Some k => JStr (spk_public_key k)
                | None => JUndefined
                end;
              signedPreKeySignature :=
                match signed with
                | Some k => JStr (spk_signature k)
                | None => JUndefined
                end |})]).
Proof.
  intros Hb Ht Hv Hc Hp F0 F1 F2 Hu Hk Hs.
  apply first_of_filter in Hu, Hk, Hs.
  rewrite (keys_exchange_found env auth tok user cid bundle contact); try done.
  unfold make_recipientKeys, Sql.pre_keys_of, Sql.signed_pre_keys_of.
  simpl. rewrite !take_1_head, Hk, Hs.
  destruct (u_registration_id contact), (u_identity_key contact), one_time, signed;
    reflexivity.
Qed.

End KeyExchange.

(** ** The connection registry *)

Section Registry.

(** C6 (as amended): the disconnect handler deletes the entry of the
    socket's user whatever socket is registered there: afterwards the user
    has no entry, the entries of the other users are as before, and the
    database is untouched. *)
Theorem on_disconnect_deletes_unconditionally (socket : Socket) (w : World) :
  connectedUsers (run (on_disconnect socket) w).1
  = delete (userId socket) (connectedUsers w) /\
  connectedUsers (run (on_disconnect socket) w).1 !! userId socket = None /\
  (forall k, k ≠ userId socket ->
     connectedUsers (run (on_disconnect socket) w).1 !! k = connectedUsers w !! k) /\
  db (run (on_disconnect socket) w).1 = db w.
Proof.
  unfold on_disconnect. unfold_M. simpl.
  split; [reflexivity|]. split; [apply lookup_delete_eq|].
  split; [|reflexivity].
  intros k Hk. by apply lookup_delete_ne.
Qed.

End Registry.

(** ** The relay *)

Section Relay.

Context `{Platform}.

(** When the insert fails, for a constraint or for any other error, the
    handler logs and stops. *)
Lemma on_send_message_failed env socket recipientId enc plain w :
  db_fault env 0 = true \/
  (exists e, Sql.insert_message (db w) (sent_row env socket recipientId enc plain)
             = inl e) ->
  run (on_send_message env socket recipientId enc plain) w
  = (w, [ConsoleError "Error saving message:"]).
Proof.
  unfold on_send_message, sent_row. unfold_M.
  intros [F | [e E]].
  - rewrite F. reflexivity.
  - destruct (db_fault env 0); [reflexivity|]. rewrite E. reflexivity.
Qed.

(** When the insert is committed, the push follows it in the trace, to
    the socket registered for the recipient, if there is one. *)
Lemma on_send_message_committed env socket recipientId enc plain w d' :
  db_fault env 0 = false ->
  Sql.insert_message (db w) (sent_row env socket recipientId enc plain) = inr d' ->
  run (on_send_message env socket recipientId enc plain) w
  = ({| db := d'; connectedUsers := connectedUsers w |},
     Committed (InsertMessage (generateId "msg_" env)) ::
     match connectedUsers w !! default EmptyString recipientId with
     | Some recipientSocket =>
         [Emit recipientSocket "message"
            {| push_id := generateId "msg_" env;
               push_senderId := userId socket;
               push_encryptedMessage := enc;
               push_timestamp := now_ms env |}]
     | None => []
     end).
Proof.
  unfold on_send_message, sent_row. unfold_M.
  intros F E. rewrite F, E. simpl.
  destruct (connectedUsers w !! default EmptyString recipientId); reflexivity.
Qed.

(** C7: persistence precedes the push.  In the trace of a [send_message]
    run every emitted event comes after the record that the insert of that
    very message was committed, and the row is in the messages table of
    the resulting world.  When the insert fails, the run changes nothing,
    and its trace is the logged error alone: no event is emitted, to the
    recipient or to the sender. *)
Theorem send_message_persists_before_push env socket recipientId enc plain w :
  (forall t1 to event payload t2,
     (run (on_send_message env socket recipientId enc plain) w).2
     = t1 ++ Emit to event payload :: t2 ->
     Committed (InsertMessage (push_id payload)) ∈ t1 /\
     exists m,
       sent_row env socket recipientId enc plain = Some m /\
       m_id m = push_id payload /\
       m ∈ messages (db (run (on_send_message env socket recipientId enc plain) w).1)) /\
  (db_fault env 0 = true \/
   (exists e, Sql.insert_message (db w) (sent_row env socket recipientId enc plain)
              = inl e) ->
   run (on_send_message env socket recipientId enc plain) w
   = (w, [ConsoleError "Error saving message:"]) /\
   forall to event payload,
     Emit to event payload ∉ (run (on_send_message env socket recipientId enc plain) w).2).
Proof.
  split.
  - intros t1 to event payload t2.
    destruct (db_fault env 0) eqn:F.
    { rewrite on_send_message_failed by auto. simpl.
      destruct t1 as [|? [|]]; discriminate. }
    destruct (Sql.insert_message (db w) (sent_row env socket recipientId enc plain))
      as [e|d'] eqn:E.
    { rewrite on_send_message_failed by eauto. simpl.
      destruct t1 as [|? [|]]; discriminate. }
    rewrite (on_send_message_committed _ _ _ _ _ _ d' F E). simpl.
    destruct (insert_message_inr _ _ _ E) as (m & Hrow & Hm).
    destruct (connectedUsers w !! default EmptyString recipientId) as [s|].
    + destruct t1 as [|e1 [|e2 [|e3 t1]]]; intros [=]; subst.
      split; [apply list_elem_of_here|].
      exists m. split; [done|]. split.
      * unfold sent_row, Sql.message_row in Hrow.
        repeat case_match; simplify_eq. reflexivity.
      * rewrite Hm. apply elem_of_app. right. apply list_elem_of_here.
    + destruct t1 as [|e1 [|e2 t1]]; discriminate.
  - intros Hfail. rewrite on_send_message_failed by done. simpl.
    split; [reflexivity|].
    intros to event payload Hin. apply list_elem_of_singleton in Hin. discriminate.
Qed.

End Relay.

(** ** History *)

Section History.

Context `{Platform} (penv : option string).

#[local] Instance by_timestamp_trans : Transitive by_timestamp.
Proof. unfold by_timestamp. intros x y z. lia. Qed.

Lemma insert_by_timestamp_elem m x l :
  x ∈ Sql.insert_by_timestamp m l <-> x = m \/ x ∈ l.
Proof.
  induction l as [|y l IH]; simpl.
  - rewrite list_elem_of_singleton. rewrite elem_of_nil. tauto.
  - destruct (Z.ltb (m_timestamp m) (m_timestamp y)).
    + rewrite elem_of_cons. tauto.
    + rewrite !elem_of_cons, IH. tauto.
Qed.

Lemma insert_by_timestamp_HdRel a m l :
  by_timestamp a m -> HdRel by_timestamp a l ->
  HdRel by_timestamp a (Sql.insert_by_timestamp m l).
Proof.
  intros Ham Hl. destruct l as [|y l]; simpl.
  - by constructor.
  - destruct (Z.ltb (m_timestamp m) (m_timestamp y)); constructor; [done|].
    by inversion Hl.
Qed.

Lemma insert_by_timestamp_Sorted m l :
  Sorted by_timestamp l -> Sorted by_timestamp (Sql.insert_by_timestamp m l).
Proof.
  induction 1 as [|y l Hl IH Hy]; simpl.
  - repeat constructor.
  - destruct (Z.ltb_spec (m_timestamp m) (m_timestamp y)).
    + constructor; [by constructor|]. constructor. unfold by_timestamp. lia.
    + constructor; [exact IH|].
      apply insert_by_timestamp_HdRel; [unfold by_timestamp; lia | exact Hy].
Qed.

Lemma order_by_timestamp_from acc l :
  Sorted by_timestamp acc ->
  Sorted by_timestamp (foldl (fun acc m => Sql.insert_by_timestamp m acc) acc l).
Proof.
  revert acc. induction l as [|m l IH]; simpl; intros acc Hacc; [done|].
  apply IH. by apply insert_by_timestamp_Sorted.
Qed.

Lemma order_by_timestamp_Sorted l :
  StronglySorted by_timestamp (Sql.order_by_timestamp l).
Proof.
  apply Sorted_StronglySorted; [apply by_timestamp_trans|].
  apply order_by_timestamp_from. constructor.
Qed.

Lemma order_by_timestamp_elem_from x acc l :
  x ∈ foldl (fun acc m => Sql.insert_by_timestamp m acc) acc l <-> x ∈ acc \/ x ∈ l.
Proof.
  revert acc. induction l as [|m l IH]; simpl; intros acc.
  - rewrite elem_of_nil. tauto.
  - rewrite IH, insert_by_timestamp_elem, elem_of_cons. tauto.
Qed.

Lemma order_by_timestamp_elem x l : x ∈ Sql.order_by_timestamp l <-> x ∈ l.
Proof.
  unfold Sql.order_by_timestamp. rewrite order_by_timestamp_elem_from.
  rewrite elem_of_nil. tauto.
Qed.

(** Rows of one second keep their order when a row is inserted: the new
    row goes behind those of its own second. *)
Lemma insert_by_timestamp_at_second t m l :
  StronglySorted by_timestamp l ->
  at_second t (Sql.insert_by_timestamp m l) = at_second t l ++ at_second t [m].
Proof.
  unfold at_second. induction 1 as [|y l Hl IH Hy]; simpl.
  - reflexivity.
  - destruct (Z.ltb_spec (m_timestamp m) (m_timestamp y)) as [Hlt|Hge]; simpl.
    + destruct (Z.eqb_spec (m_timestamp m) t) as [Hm|Hm]; [|by rewrite app_nil_r].
      destruct (Z.eqb_spec (m_timestamp y) t) as [Hy'|Hy']; [lia|].
      rewrite filter_none; [reflexivity|].
      intros x Hx. apply Z.eqb_neq.
      rewrite List.Forall_forall in Hy. apply list_elem_of_In, Hy in Hx.
      unfold by_timestamp in Hx. lia.
    + simpl in IH. rewrite IH. by destruct (Z.eqb (m_timestamp y) t).
Qed.

Lemma order_by_timestamp_at_second_from t acc l :
  Sorted by_timestamp acc ->
  at_second t (foldl (fun acc m => Sql.insert_by_timestamp m acc) acc l)
  = at_second t acc ++ at_second t l.
Proof.
  revert acc. induction l as [|m l IH]; simpl; intros acc Hacc.
  - by rewrite app_nil_r.
  - rewrite IH by by apply insert_by_timestamp_Sorted.
    rewrite insert_by_timestamp_at_second
      by (apply Sorted_StronglySorted; [apply by_timestamp_trans | done]).
    rewrite <- app_assoc. f_equal.
    unfold at_second. simpl. by destruct (Z.eqb (m_timestamp m) t).
Qed.

Lemma order_by_timestamp_at_second t l :
  at_second t (Sql.order_by_timestamp l) = at_second t l.
Proof.
  unfold Sql.order_by_timestamp.
  rewrite order_by_timestamp_at_second_from by constructor. reflexivity.
Qed.

Lemma between_sym a b m : Sql.between a b m = Sql.between b a m.
Proof. unfold Sql.between. apply orb_comm. Qed.

Lemma messages_between_sym d a b :
  Sql.messages_between d a b = Sql.messages_between d b a.
Proof.
  unfold Sql.messages_between. f_equal.
  apply List.filter_ext. intros m. apply between_sym.
Qed.

Lemma between_spec a b m :
  Sql.between a b m = true <->
  (m_sender_id m = a /\ m_recipient_id m = b) \/
  (m_sender_id m = b /\ m_recipient_id m = a).
Proof.
  unfold Sql.between.
  rewrite orb_true_iff, !andb_true_iff, !String.eqb_eq. tauto.
Qed.

Lemma messages_get_authenticated env auth tok user contactId w :
  bearer_token auth = Some tok ->
  tok ≠ EmptyString ->
  jwt_verify tok (JWT_SECRET penv) (now_ms env) = inr user ->
  db_fault env 0 = false ->
  run (messages_get penv env auth contactId) w
  = (w, [Respond 200 (BMessages (Sql.messages_between (db w) (jwt_id user) contactId))]).
Proof.
  intros Hb Ht Hv F0. unfold run, messages_get.
  rewrite (authenticateToken_accept _ _ _ _ _ _ Hb Ht Hv).
  unfold_M. rewrite F0. reflexivity.
Qed.

(** C5 (as amended): the two parties of a conversation are answered the
    same list of envelopes, in the same order.  The list holds exactly the
    envelopes of the store that went from one of the two to the other, in
    either direction, and it ascends by timestamp.  Envelopes of the same
    second are not ordered by id: they keep the order in which the store
    holds them. *)
Theorem history_symmetric_by_timestamp
    env_a env_b auth_a auth_b tok_a tok_b a b w :
  bearer_token auth_a = Some tok_a ->
  tok_a ≠ EmptyString ->
  jwt_verify tok_a (JWT_SECRET penv) (now_ms env_a) = inr a ->
  bearer_token auth_b = Some tok_b ->
  tok_b ≠ EmptyString ->
  jwt_verify tok_b (JWT_SECRET penv) (now_ms env_b) = inr b ->
  db_fault env_a 0 = false ->
  db_fault env_b 0 = false ->
  exists rows,
    run (messages_get penv env_a auth_a (jwt_id b)) w
    = (w, [Respond 200 (BMessages rows)]) /\
    run (messages_get penv env_b auth_b (jwt_id a)) w
    = (w, [Respond 200 (BMessages rows)]) /\
    (forall m,
       m ∈ rows <->
       m ∈ messages (db w) /\
       ((m_sender_id m = jwt_id a /\ m_recipient_id m = jwt_id b) \/
        (m_sender_id m = jwt_id b /\ m_recipient_id m = jwt_id a))) /\
    StronglySorted by_timestamp rows /\
    (forall t,
       at_second t rows
       = at_second t (List.filter (Sql.between (jwt_id a) (jwt_id b)) (messages (db w)))).
Proof.
  intros Ba Ta Va Bb Tb Vb Fa Fb.
  exists (Sql.messages_between (db w) (jwt_id a) (jwt_id b)).
  split; [by apply (messages_get_authenticated env_a auth_a tok_a)|].
  split.
  { rewrite (messages_between_sym (db w) (jwt_id a) (jwt_id b)).
    by apply (messages_get_authenticated env_b auth_b tok_b). }
  unfold Sql.messages_between. split; [|split].
  - intros m. rewrite order_by_timestamp_elem.
    rewrite list_elem_of_In, List.filter_In, <- list_elem_of_In, between_spec.
    tauto.
  - apply order_by_timestamp_Sorted.
  - intros t. apply order_by_timestamp_at_second.
Qed.

End History.

(** * The handlers on concrete inputs *)

Section Runs.

Import Reference Scenario.

(** The world the three registrations leave. *)
Example registered_users :
  db registered
  = {| users := [user_row alice "secret1"; user_row bob "secret2";
                 user_row carol "secret3"];
       contacts := []; messages := []; pre_keys := []; signed_pre_keys := [] |} /\
  connectedUsers registered = ∅.
Proof. vm_compute. split; reflexivity. Qed.

(** ** Credentials and tokens *)

Lemma register_login_verify_witness :
  exists w1 w2 token_r token_l,
    run (auth_register None (env_at 1000 "aaaaaaaaa") (Some "alice") (Some "secret1"))
      empty_world
    = (w1,
       [Committed (InsertUser (generateUserId (env_at 1000 "aaaaaaaaa")));
        Respond 200
          (BAuth "User created successfully" token_r
             {| ui_id := generateUserId (env_at 1000 "aaaaaaaaa");
                ui_username := "alice" |})]) /\
    (run (serve None (tail registrations)) w1).1 = w2 /\
    run (auth_login None (env_at 4000 "zzzzzzzzz") (Some "alice") (Some "secret1")) w2
    = (w2,
       [Respond 200
          (BAuth "Login successful" token_l
             {| ui_id := generateUserId (env_at 1000 "aaaaaaaaa");
                ui_username := "alice" |})]) /\
    exists principal,
      jwt_verify token_l (JWT_SECRET None) 6000 = inr principal /\
      jwt_id principal = generateUserId (env_at 1000 "aaaaaaaaa").
Proof.
  apply (register_login_verify None);
    try (vm_compute; reflexivity); vm_compute; lia.
Defined.

Lemma expired_and_forged_tokens_indistinguishable_witness :
  authenticateToken None (env_at eight_days_later "aaaaaaaaa") (bearer alice)
    (fun _ => res_json (BMessage "reached the route")) registered
  = authenticateToken None (env_at 5000 "bbbbbbbbb")
      (Some ("Bearer " +:+ forged_token))
      (fun _ => res_json (BMessage "reached the route")) registered /\
  authenticateToken None (env_at eight_days_later "aaaaaaaaa") (bearer alice)
    (fun _ => res_json (BMessage "reached the route")) registered
  = (tt, registered, [Respond 403 (BMessage "Invalid token")]) /\
  io_use None (env_at eight_days_later "aaaaaaaaa") "socket_1" (Some (token_of alice))
  = io_use None (env_at 5000 "bbbbbbbbb") "socket_2" (Some forged_token) /\
  io_use None (env_at eight_days_later "aaaaaaaaa") "socket_1" (Some (token_of alice))
  = inl "Authentication error".
Proof.
  apply (expired_and_forged_tokens_indistinguishable None
           (env_at eight_days_later "aaaaaaaaa") (env_at 5000 "bbbbbbbbb")
           (bearer alice) (Some ("Bearer " +:+ forged_token))
           (token_of alice) forged_token "invalid signature");
    try (vm_compute; reflexivity); discriminate.
Defined.

(** ** Contacts *)

(** C4, counterexample: Alice holds a valid token and no row of the users
    table carries her handle.  Adding her own handle is answered 404
    [User not found], not 400. *)
Lemma self_add_preempted_by_not_found :
  verify (token_of alice) secret 5000 = inr alice /\
  Sql.user_by_username (db empty_world) (jwt_username alice) = None /\
  run (contacts_add None (env_at 5000 "aaaaaaaaa") (bearer alice)
         (Some (jwt_username alice))) empty_world
  = (empty_world, [Respond 404 (BMessage "User not found")]) /\
  status_of [Respond 404 (BMessage "User not found")] ≠ Some 400%nat.
Proof.
  split; [vm_compute; reflexivity|]. split; [reflexivity|].
  split; [vm_compute; reflexivity | discriminate].
Qed.

Lemma contacts_add_self_witness :
  run (contacts_add None (env_at 5000 "aaaaaaaaa") (bearer alice)
         (Some (jwt_username alice))) registered
  = (registered, [Respond 400 (BMessage "Cannot add yourself as a contact")]).
Proof.
  apply (proj1 (contacts_add_self None (env_at 5000 "aaaaaaaaa") (bearer alice)
                  (token_of alice) alice registered
                  ltac:(vm_compute; reflexivity) ltac:(discriminate)
                  ltac:(vm_compute; reflexivity) ltac:(discriminate)
                  ltac:(reflexivity))
           (user_row alice "secret1"));
    vm_compute; reflexivity.
Defined.

(** ** The key exchange *)

(** C1, counterexample: the store holds one one-time pre-key of Bob.
    Alice fetches his bundle and is handed key 7; the server then serves
    other requests; Carol fetches the bundle and is handed key 7 too. *)
Lemma one_time_key_served_twice :
  pre_keys (db world_with_keys) = [bob_one_time_key] /\
  (run (keys_exchange None (env_at 6000 "hhhhhhhhh") (bearer alice)
          (Some (jwt_id bob)) demo_bundle) world_with_keys).2
  = [Respond 200 (BKeys "Key exchange successful" bob_bundle)] /\
  (run (keys_exchange None (env_at 9000 "iiiiiiiii") (bearer carol)
          (Some (jwt_id bob)) demo_bundle)
     (run (serve None meanwhile)
        (run (keys_exchange None (env_at 6000 "hhhhhhhhh") (bearer alice)
                (Some (jwt_id bob)) demo_bundle) world_with_keys).1).1).2
  = [Respond 200 (BKeys "Key exchange successful" bob_bundle)] /\
  preKeyId bob_bundle = JNum (pk_key_id bob_one_time_key) /\
  preKeyPublic bob_bundle = JStr (pk_public_key bob_one_time_key).
Proof. vm_compute. repeat split; reflexivity. Qed.

Lemma keys_exchange_does_not_consume_witness :
  (run (keys_exchange None (env_at 6000 "hhhhhhhhh") (bearer alice)
          (Some (jwt_id bob)) demo_bundle) world_with_keys).1
  = world_with_keys /\
  preKeyId bob_bundle = preKeyId bob_bundle /\
  preKeyPublic bob_bundle = preKeyPublic bob_bundle /\
  preKeyId bob_bundle
  = opt_chain (Sql.pre_keys_of (db world_with_keys) (jwt_id bob) !! 0%nat)
      (fun k => JNum (pk_key_id k)) /\
  preKeyPublic bob_bundle
  = opt_chain (Sql.pre_keys_of (db world_with_keys) (jwt_id bob) !! 0%nat)
      (fun k => JStr (pk_public_key k)).
Proof.
  apply (keys_exchange_does_not_consume None
           (env_at 6000 "hhhhhhhhh") (env_at 9000 "iiiiiiiii")
           (bearer alice) (bearer carol) (jwt_id bob) demo_bundle demo_bundle
           meanwhile world_with_keys
           "Key exchange successful" "Key exchange successful").
  - vm_compute. reflexivity.
  - vm_compute. reflexivity.
Defined.

(** C2, counterexample: Alice submits the client's bundle for Bob, who is
    connected.  The call is answered 200, yet the world is the one it
    started from and the trace holds no write and no emitted event: the
    bundle has gone nowhere. *)
Lemma submitted_bundle_not_relayed :
  connectedUsers world_with_keys !! jwt_id bob = Some bob_socket /\
  run (keys_exchange None (env_at 6000 "hhhhhhhhh") (bearer alice)
         (Some (jwt_id bob)) demo_bundle) world_with_keys
  = (world_with_keys,
     [Respond 200 (BKeys "Key exchange successful" bob_bundle)]) /\
  relaying [Respond 200 (BKeys "Key exchange successful" bob_bundle)] = [].
Proof.
  split; [reflexivity|]. split; [|reflexivity].
  vm_compute. reflexivity.
Qed.

Lemma keys_exchange_discards_bundle_witness :
  keys_exchange None (env_at 6000 "hhhhhhhhh") (bearer alice) (Some (jwt_id bob))
    demo_bundle world_with_keys
  = keys_exchange None (env_at 6000 "hhhhhhhhh") (bearer alice) (Some (jwt_id bob))
      (JStr "x") world_with_keys /\
  (run (keys_exchange None (env_at 6000 "hhhhhhhhh") (bearer alice)
          (Some (jwt_id bob)) demo_bundle) world_with_keys).1 = world_with_keys /\
  relaying (run (keys_exchange None (env_at 6000 "hhhhhhhhh") (bearer alice)
                   (Some (jwt_id bob)) demo_bundle) world_with_keys).2 = [].
Proof.
  apply (keys_exchange_discards_bundle None); reflexivity.
Defined.



Lemma keys_exchange_needs_no_contact_edge_witness :
  contacts (set_contacts [] (db world_with_keys)) = [] /\
  run (keys_exchange None (env_at 6000 "hhhhhhhhh") (bearer alice)
         (Some (jwt_id bob)) demo_bundle)
    {| db := set_contacts [] (db world_with_keys);
       connectedUsers := connectedUsers world_with_keys |}
  = ({| db := set_contacts [] (db world_with_keys);
        connectedUsers := connectedUsers world_with_keys |},
     [Respond 200 (BKeys "Key exchange successful" bob_bundle)]).
Proof.
  split; [reflexivity|].
  refine (keys_exchange_needs_no_contact_edge None (env_at 6000 "hhhhhhhhh")
            (bearer alice) (token_of alice) alice (jwt_id bob) demo_bundle
            (db world_with_keys) [] (connectedUsers world_with_keys)
            (user_row bob "secret2") (Some bob_one_time_key) (Some bob_signed_key)
            _ _ _ _ _ _ _ _ _ _ _).
  - vm_compute. reflexivity.
  - discriminate.
  - vm_compute. reflexivity.
  - discriminate.
  - reflexivity.
  - reflexivity.
  - reflexivity.
  - reflexivity.
  - exists [user_row alice "secret1"], [user_row carol "secret3"].
    split; [vm_compute; reflexivity|]. split; [reflexivity|].
    intros y Hy. apply list_elem_of_singleton in Hy as ->. discriminate.
  - exists [], []. split; [reflexivity|]. split; [reflexivity|].
    intros y Hy. by apply elem_of_nil in Hy.
  - exists [], []. split; [reflexivity|]. split; [reflexivity|].
    intros y Hy. by apply elem_of_nil in Hy.
Defined.

(** ** The registry *)

(** C6, counterexample: Bob connects, then connects again; the registry
    holds his newer socket.  The disconnect of the older socket then
    removes the entry, although the registered socket is not the one that
    disconnected. *)
Lemma stale_disconnect_evicts_newer_connection :
  io_use None (env_at 5000 "ddddddddd") "socket_b" (Some (token_of bob))
  = inr bob_socket /\
  io_use None (env_at 5500 "eeeeeeeee") "socket_b2" (Some (token_of bob))
  = inr bob_socket_new /\
  bob_socket ≠ bob_socket_new /\
  connectedUsers (run (serve None bob_connects_twice) registered).1 !! jwt_id bob
  = Some bob_socket_new /\
  connectedUsers
    (run (on_disconnect bob_socket)
       (run (serve None bob_connects_twice) registered).1).1 !! jwt_id bob
  = None.
Proof.
  split; [vm_compute; reflexivity|]. split; [vm_compute; reflexivity|].
  split; [discriminate|]. split; vm_compute; reflexivity.
Qed.

(** ** The relay and the history *)

(** A send to a connected recipient: the insert is committed, then the
    event is emitted to the recipient's socket. *)
Example send_to_connected_recipient :
  (run (on_send_message (env_at 6000 "zzzzzzzzz") alice_socket (Some (jwt_id bob))
          (JStr "c1") (Some "hello")) world_with_keys).2
  = [Committed (InsertMessage "msg_zzzzzzzzz6000");
     Emit bob_socket "message"
       {| push_id := "msg_zzzzzzzzz6000"; push_senderId := jwt_id alice;
          push_encryptedMessage := JStr "c1"; push_timestamp := 6000 |}].
Proof. vm_compute. reflexivity. Qed.

(** C7 at a concrete input: Alice sends to Bob, who is connected, an event
    without ciphertext.  The insert violates [NOT NULL]; nothing is
    stored and nothing is pushed. *)
Lemma send_message_persists_before_push_witness :
  run (on_send_message (env_at 6000 "zzzzzzzzz") alice_socket (Some (jwt_id bob))
         JUndefined (Some "hello")) world_with_keys
  = (world_with_keys, [ConsoleError "Error saving message:"]) /\
  forall to event payload,
    Emit to event payload
    ∉ (run (on_send_message (env_at 6000 "zzzzzzzzz") alice_socket
              (Some (jwt_id bob)) JUndefined (Some "hello")) world_with_keys).2.
Proof.
  apply (proj2 (send_message_persists_before_push (env_at 6000 "zzzzzzzzz")
                  alice_socket (Some (jwt_id bob)) JUndefined (Some "hello")
                  world_with_keys)).
  right. exists SQLITE_CONSTRAINT. reflexivity.
Defined.

(** C5, counterexample: two envelopes of the same second whose ids
    descend.  Both parties are answered the envelopes in the order they
    were sent, which is not the order of the key [(timestamp, id)]. *)
Lemma history_not_sorted_by_timestamp_then_id :
  messages (db after_two_sends) = two_envelopes /\
  run (messages_get None (env_at 7000 "ccccccccc") (bearer alice) (jwt_id bob))
    after_two_sends
  = (after_two_sends, [Respond 200 (BMessages two_envelopes)]) /\
  run (messages_get None (env_at 8000 "ddddddddd") (bearer bob) (jwt_id alice))
    after_two_sends
  = (after_two_sends, [Respond 200 (BMessages two_envelopes)]) /\
  ~ Sorted by_timestamp_then_id two_envelopes.
Proof.
  split; [vm_compute; reflexivity|].
  split; [vm_compute; reflexivity|].
  split; [vm_compute; reflexivity|].
  intros Hs. inversion Hs as [|x l _ Hd]; subst.
  inversion Hd as [|y l' Hrel]; subst.
  destruct Hrel as [Hlt | [_ Hle]].
  - vm_compute in Hlt. discriminate.
  - vm_compute in Hle. discriminate.
Qed.

Lemma history_symmetric_by_timestamp_witness :
  exists rows,
    run (messages_get None (env_at 7000 "ccccccccc") (bearer alice) (jwt_id bob))
      after_two_sends
    = (after_two_sends, [Respond 200 (BMessages rows)]) /\
    run (messages_get None (env_at 8000 "ddddddddd") (bearer bob) (jwt_id alice))
      after_two_sends
    = (after_two_sends, [Respond 200 (BMessages rows)]) /\
    (forall m,
       m ∈ rows <->
       m ∈ messages (db after_two_sends) /\
       ((m_sender_id m = jwt_id alice /\ m_recipient_id m = jwt_id bob) \/
        (m_sender_id m = jwt_id bob /\ m_recipient_id m = jwt_id alice))) /\
    StronglySorted by_timestamp rows /\
    (forall t,
       at_second t rows
       = at_second t
           (List.filter (Sql.between (jwt_id alice) (jwt_id bob))
              (messages (db after_two_sends)))).
Proof.
  apply (history_symmetric_by_timestamp None
           (env_at 7000 "ccccccccc") (env_at 8000 "ddddddddd")
           (bearer alice) (bearer bob) (token_of alice) (token_of bob));
    try (vm_compute; reflexivity); discriminate.
Defined.

End Runs.

(** * Further properties of the handlers *)

(** ** What a request can do to the store *)

Section StoreSteps.

Context `{Platform} (penv : option string).

(** A request leaves the database as it is or performs one insert. *)
Lemma handle_db_change env r w :
  db (run (handle penv env r) w).1 = db w \/
  (exists id name hashed,
     Sql.insert_user (db w) id name hashed = inr (db (run (handle penv env r) w).1)) \/
  (exists id owner peer,
     Sql.insert_contact (db w) id owner peer
     = inr (db (run (handle penv env r) w).1)) \/
  (exists row,
     Sql.insert_message (db w) row = inr (db (run (handle penv env r) w).1)).
Proof.
  destruct r;
    unfold handle, auth_register, auth_login, contacts_get, contacts_add,
      keys_exchange, messages_get, on_connection, on_send_message,
      on_disconnect, authenticateToken.
  all: unfold_M; repeat (branch; simpl); eauto 10.
Qed.

Lemma insert_user_inr d id name hashed d' :
  Sql.insert_user d id name hashed = inr d' ->
  existsb (fun u => String.eqb (u_id u) id || String.eqb (u_username u) name)
    (users d) = false /\
  d' = {| users := users d ++
            [{| u_id := id; u_username := name; u_password_hash := hashed;
                u_registration_id := None; u_identity_key := None |}];
          contacts := contacts d; messages := messages d;
          pre_keys := pre_keys d; signed_pre_keys := signed_pre_keys d |}.
Proof.
  unfold Sql.insert_user. destruct (existsb _ _); [discriminate|].
  intros [= <-]. auto.
Qed.

Lemma insert_contact_inr d id owner peer d' :
  Sql.insert_contact d id owner peer = inr d' ->
  existsb (fun c => String.eqb (c_id c) id
                    || (String.eqb (c_user_id c) owner
                        && String.eqb (c_contact_id c) peer))
    (contacts d) = false /\
  d' = {| users := users d;
          contacts := contacts d ++
            [{| c_id := id; c_user_id := owner; c_contact_id := peer |}];
          messages := messages d;
          pre_keys := pre_keys d; signed_pre_keys := signed_pre_keys d |}.
Proof.
  unfold Sql.insert_contact. destruct (existsb _ _); [discriminate|].
  intros [= <-]. auto.
Qed.

Lemma insert_message_inr_full d row d' :
  Sql.insert_message d row = inr d' ->
  exists m,
    row = Some m /\
    existsb (fun m' => String.eqb (m_id m') (m_id m)) (messages d) = false /\
    d' = {| users := users d; contacts := contacts d;
            messages := messages d ++ [m];
            pre_keys := pre_keys d; signed_pre_keys := signed_pre_keys d |}.
Proof.
  unfold Sql.insert_message. destruct row as [m|]; [|discriminate].
  destruct (existsb _ _) eqn:E; [discriminate|].
  intros [= <-]. eauto.
Qed.

Lemma grows_refl d : grows d d.
Proof. unfold grows. repeat split; reflexivity. Qed.

Lemma grows_trans d1 d2 d3 : grows d1 d2 -> grows d2 d3 -> grows d1 d3.
Proof.
  unfold grows. intros (U1 & C1 & M1 & P1 & S1) (U2 & C2 & M2 & P2 & S2).
  repeat split; try (etrans; eassumption); congruence.
Qed.

Lemma handle_grows env r w : grows (db w) (db (run (handle penv env r) w).1).
Proof.
  destruct (handle_db_change env r w)
    as [E | [(i & n & h & E) | [(i & o & p & E) | (row & E)]]].
  - rewrite E. apply grows_refl.
  - apply insert_user_inr in E as [_ ->]. unfold grows. simpl.
    repeat split; try reflexivity. by apply prefix_app_r.
  - apply insert_contact_inr in E as [_ ->]. unfold grows. simpl.
    repeat split; try reflexivity. by apply prefix_app_r.
  - apply insert_message_inr_full in E as (m & _ & _ & ->). unfold grows. simpl.
    repeat split; try reflexivity. by apply prefix_app_r.
Qed.

Lemma serve_grows rs w : grows (db w) (db (run (serve penv rs) w).1).
Proof.
  apply (serve_invariant penv (fun w' => grows (db w) (db w')));
    [|apply grows_refl].
  intros env r w' Hw'. eapply grows_trans; [exact Hw' | apply handle_grows].
Qed.

(** X8: the store is append-only.  Whatever requests the server serves,
    each of the users, contacts and messages tables it started from is the
    beginning of the table it ends with: no row is deleted, changed or
    moved; and the two key tables are not written at all. *)
Theorem store_is_append_only rs w :
  users (db w) `prefix_of` users (db (run (serve penv rs) w).1) /\
  contacts (db w) `prefix_of` contacts (db (run (serve penv rs) w).1) /\
  messages (db w) `prefix_of` messages (db (run (serve penv rs) w).1) /\
  pre_keys (db (run (serve penv rs) w).1) = pre_keys (db w) /\
  signed_pre_keys (db (run (serve penv rs) w).1) = signed_pre_keys (db w).
Proof.
  destruct (serve_grows rs w) as (Hu & Hc & Hm & Hp & Hs).
  split; [exact Hu|]. split; [exact Hc|]. split; [exact Hm|].
  split; [exact Hp | exact Hs].
Qed.

End StoreSteps.

(** ** Uniqueness of keys *)

Section Uniqueness.

Context `{Platform} (penv : option string).

Lemma existsb_false_elem {A} (p : A -> bool) (l : list A) x :
  existsb p l = false -> x ∈ l -> p x = false.
Proof.
  induction l as [|y l IH]; simpl; intros He Hx.
  - by apply elem_of_nil in Hx.
  - apply orb_false_elim in He as [Hy Hl].
    apply elem_of_cons in Hx as [->|Hx]; auto.
Qed.

Lemma NoDup_fmap_snoc {A B} (f : A -> B) (l : list A) (x : A) :
  NoDup (f <$> l) -> (forall y, y ∈ l -> f y ≠ f x) -> NoDup (f <$> l ++ [x]).
Proof.
  intros Hl Hx. rewrite fmap_app. apply NoDup_app. split; [exact Hl|].
  split; [|apply NoDup_singleton].
  intros k Hk Hk'. apply list_elem_of_singleton in Hk'. subst k.
  apply list_elem_of_fmap in Hk as (y & Hfy & Hy). by apply (Hx y).
Qed.

Lemma insert_user_unique d id name hashed d' :
  Sql.insert_user d id name hashed = inr d' -> keys_unique d -> keys_unique d'.
Proof.
  intros E (U1 & U2 & C1 & C2 & M1). apply insert_user_inr in E as [Hex ->].
  unfold keys_unique. simpl. repeat split; try done.
  - apply NoDup_fmap_snoc; [done|]. intros y Hy Heq. simpl in Heq.
    pose proof (existsb_false_elem _ _ _ Hex Hy) as Hp. simpl in Hp.
    apply orb_false_elim in Hp as [Hp _]. apply String.eqb_neq in Hp. done.
  - apply NoDup_fmap_snoc; [done|]. intros y Hy Heq. simpl in Heq.
    pose proof (existsb_false_elem _ _ _ Hex Hy) as Hp. simpl in Hp.
    apply orb_false_elim in Hp as [_ Hp]. apply String.eqb_neq in Hp. done.
Qed.

Lemma insert_contact_unique d id owner peer d' :
  Sql.insert_contact d id owner peer = inr d' -> keys_unique d -> keys_unique d'.
Proof.
  intros E (U1 & U2 & C1 & C2 & M1). apply insert_contact_inr in E as [Hex ->].
  unfold keys_unique. simpl. repeat split; try done.
  - apply NoDup_fmap_snoc; [done|]. intros y Hy Heq. simpl in Heq.
    pose proof (existsb_false_elem _ _ _ Hex Hy) as Hp. simpl in Hp.
    apply orb_false_elim in Hp as [Hp _]. apply String.eqb_neq in Hp. done.
  - apply NoDup_fmap_snoc; [done|]. intros y Hy Heq. simpl in Heq.
    pose proof (existsb_false_elem _ _ _ Hex Hy) as Hp. simpl in Hp.
    apply orb_false_elim in Hp as [_ Hp].
    injection Heq as Ho Hpeer. rewrite Ho, Hpeer, !String.eqb_refl in Hp.
    discriminate.
Qed.

Lemma insert_message_unique d row d' :
  Sql.insert_message d row = inr d' -> keys_unique d -> keys_unique d'.
Proof.
  intros E (U1 & U2 & C1 & C2 & M1).
  apply insert_message_inr_full in E as (m & _ & Hex & ->).
  unfold keys_unique. simpl. repeat split; try done.
  apply NoDup_fmap_snoc; [done|]. intros y Hy Heq.
  pose proof (existsb_false_elem _ _ _ Hex Hy) as Hp. simpl in Hp.
  apply String.eqb_neq in Hp. done.
Qed.

Lemma handle_keeps_unique env r w :
  keys_unique (db w) -> keys_unique (db (run (handle penv env r) w).1).
Proof.
  intros Hw.
  destruct (handle_db_change penv env r w)
    as [E | [(i & n & h & E) | [(i & o & p & E) | (row & E)]]].
  - by rewrite E.
  - by apply (insert_user_unique _ _ _ _ _ E).
  - by apply (insert_contact_unique _ _ _ _ _ E).
  - by apply (insert_message_unique _ _ _ E).
Qed.

(** X9: the server keeps the keys of its tables unique.  From a store in
    which no two users share an id or a handle, no two contact rows share
    an id or an (owner, peer) pair and no two messages share an id, every
    sequence of requests leads to a store with the same property; the
    empty store is one to start from. *)
Theorem keys_stay_unique rs w :
  keys_unique (db w) -> keys_unique (db (run (serve penv rs) w).1).
Proof.
  apply (serve_invariant penv (fun w' => keys_unique (db w'))).
  intros env r w'. apply handle_keeps_unique.
Qed.

End Uniqueness.

(** ** Registration and login: what is refused *)

Section Refusals.

Context `{Platform} (penv : option string).

(** X1: a registration with invalid input is refused with 400 before the
    store is consulted: a missing or empty field, a handle shorter than 3
    or longer than 30 characters, and a password shorter than 6 characters
    each get their own message, in this order of precedence, and the world
    is left as it was. *)
Theorem auth_register_rejects_invalid_input env username password w :
  (truthy_str username = false \/ truthy_str password = false ->
   run (auth_register penv env username password) w
   = (w, [Respond 400 (BMessage "Username and password required")])) /\
  (forall u p,
     username = Some u -> password = Some p ->
     u ≠ EmptyString -> p ≠ EmptyString ->
     ((String.length u < 3)%nat \/ (30 < String.length u)%nat ->
      run (auth_register penv env username password) w
      = (w, [Respond 400 (BMessage "Username must be 3-30 characters")])) /\
     ((3 <= String.length u <= 30)%nat -> (String.length p < 6)%nat ->
      run (auth_register penv env username password) w
      = (w, [Respond 400 (BMessage "Password must be at least 6 characters")]))).
Proof.
  split.
  - intros [E | E]; unfold run, auth_register; rewrite E; simpl.
    + reflexivity.
    + by rewrite orb_true_r.
  - intros u p -> -> Hu Hp. unfold run, auth_register.
    rewrite (truthy_str_Some _ Hu), (truthy_str_Some _ Hp). simpl.
    split.
    + intros Hlen.
      assert (isLength u 3 (Some 30%nat) = false) as ->; [|reflexivity].
      unfold isLength. apply andb_false_iff.
      destruct Hlen; [left | right]; apply Nat.leb_gt; lia.
    + intros Hlen Hshort. rewrite (isLength_bounds _ _ _ Hlen). simpl.
      assert (isLength p 6 None = false) as ->; [|reflexivity].
      unfold isLength. rewrite andb_true_r. apply Nat.leb_gt. lia.
Qed.

(** X2: registering a handle that is taken is refused with 400
    [Username already exists]; nothing is written, so the row of the first
    registration stays as it is. *)
Theorem auth_register_rejects_taken_handle env handle secret row w :
  (3 <= String.length handle <= 30)%nat ->
  (6 <= String.length secret)%nat ->
  db_fault env 0 = false ->
  Sql.user_by_username (db w) handle = Some row ->
  run (auth_register penv env (Some handle) (Some secret)) w
  = (w, [Respond 400 (BMessage "Username already exists")]).
Proof.
  intros Hh Hs F0 Hrow.
  assert (Hh0 : handle ≠ EmptyString) by (apply (nonempty_of_length _ 2); lia).
  assert (Hs0 : secret ≠ EmptyString) by (apply (nonempty_of_length _ 5); lia).
  unfold run, auth_register.
  rewrite (truthy_str_Some _ Hh0), (truthy_str_Some _ Hs0). simpl.
  rewrite (isLength_bounds _ _ _ Hh), (isLength_min _ _ Hs). simpl.
  unfold_M. rewrite F0, Hrow. reflexivity.
Qed.

(** X3: a login for a handle nobody has and a login with a wrong password
    are answered alike, 401 [Invalid credentials], and neither changes the
    world: the answer does not tell whether the handle exists. *)
Theorem auth_login_failures_indistinguishable
    env1 env2 handle1 handle2 secret1 secret2 row w :
  handle1 ≠ EmptyString -> secret1 ≠ EmptyString ->
  handle2 ≠ EmptyString -> secret2 ≠ EmptyString ->
  db_fault env1 0 = false -> db_fault env2 0 = false ->
  Sql.user_by_username (db w) handle1 = None ->
  Sql.user_by_username (db w) handle2 = Some row ->
  bcrypt_compare secret2 (u_password_hash row) = false ->
  run (auth_login penv env1 (Some handle1) (Some secret1)) w
  = run (auth_login penv env2 (Some handle2) (Some secret2)) w /\
  run (auth_login penv env1 (Some handle1) (Some secret1)) w
  = (w, [Respond 401 (BMessage "Invalid credentials")]).
Proof.
  intros Hh1 Hs1 Hh2 Hs2 F1 F2 Hnone Hrow Hbad.
  unfold run, auth_login.
  rewrite (truthy_str_Some _ Hh1), (truthy_str_Some _ Hs1),
    (truthy_str_Some _ Hh2), (truthy_str_Some _ Hs2). simpl.
  unfold_M. rewrite F1, F2, Hnone, Hrow. simpl. rewrite Hbad. auto.
Qed.

End Refusals.

(** ** The [Authorization] header *)

Section Header.

Context `{Platform} (penv : option string).

Lemma split_without sep s : mentions sep s = false -> split sep s = [s].
Proof.
  induction s as [|c s IH]; simpl; [done|].
  intros Hm. apply orb_false_elim in Hm as [Hc Hs].
  rewrite Hc, (IH Hs). reflexivity.
Qed.

Lemma split_at sep a b :
  mentions sep a = false ->
  split sep (a +:+ String sep b) = a :: split sep b.
Proof.
  induction a as [|c a IH]; simpl.
  - intros _. by rewrite Ascii.eqb_refl.
  - intros Hm. apply orb_false_elim in Hm as [Hc Ha].
    rewrite Hc. change (String.append a (String sep b)) with (a +:+ String sep b).
    rewrite (IH Ha). reflexivity.
Qed.

(** X4: a request without an [Authorization] header, or with a header
    that has no space in it (a bare token, say), is answered 401
    [Access token required]; the token library is not called and the
    route is not run. *)
Theorem authenticateToken_requires_second_word env authorization next w :
  (authorization = None \/
   exists header, authorization = Some header /\ mentions " "%char header = false) ->
  authenticateToken penv env authorization next w
  = (tt, w, [Respond 401 (BMessage "Access token required")]).
Proof.
  intros [-> | (header & -> & Hm)]; unfold authenticateToken, bearer_token.
  - reflexivity.
  - unfold split_space. rewrite (split_without _ _ Hm). simpl.
    destruct (negb (String.eqb header EmptyString)) eqn:E; simpl.
    + reflexivity.
    + rewrite E. reflexivity.
Qed.

(** X5: the middleware takes the second space-separated word of the
    header as the token and does not look at the first: a header with any
    scheme word, or none, in front of the token is treated as
    [Bearer token] is. *)
Theorem authenticateToken_ignores_scheme env scheme token next w :
  mentions " "%char scheme = false ->
  mentions " "%char token = false ->
  bearer_token (Some (scheme +:+ " " +:+ token)) = Some token /\
  authenticateToken penv env (Some (scheme +:+ " " +:+ token)) next w
  = authenticateToken penv env (Some ("Bearer " +:+ token)) next w.
Proof.
  intros Hs Ht.
  assert (Hb : forall sch, mentions " "%char sch = false ->
                 bearer_token (Some (sch +:+ " " +:+ token)) = Some token).
  { intros sch Hsch. unfold bearer_token, split_space.
    change (sch +:+ " " +:+ token) with (sch +:+ String " "%char token).
    rewrite (split_at _ _ _ Hsch), (split_without _ _ Ht).
    destruct sch; reflexivity. }
  split; [by apply Hb|].
  unfold authenticateToken.
  change ("Bearer " +:+ token) with ("Bearer" +:+ " " +:+ token).
  rewrite (Hb scheme Hs), (Hb "Bearer" eq_refl). reflexivity.
Qed.

End Header.

(** ** Contacts: adding, adding again, listing *)

Section Contacts.

Context `{Platform} (penv : option string).

Lemma existsb_false_intro {A} (p : A -> bool) (l : list A) :
  (forall x, x ∈ l -> p x = false) -> existsb p l = false.
Proof.
  induction l as [|y l IH]; simpl; intros Hl; [done|].
  rewrite (Hl y) by apply list_elem_of_here. simpl.
  apply IH. intros x Hx. apply Hl. by apply list_elem_of_further.
Qed.

Lemma existsb_true_intro {A} (p : A -> bool) (l : list A) x :
  x ∈ l -> p x = true -> existsb p l = true.
Proof.
  intros Hx Hp. apply List.existsb_exists. exists x.
  split; [by apply list_elem_of_In | done].
Qed.

Lemma first_Some_elem {A} (p : A -> bool) (l : list A) x :
  Sql.first p l = Some x -> x ∈ l /\ p x = true.
Proof.
  unfold Sql.first. intros Hx.
  assert (Hin : In x (List.filter p l)).
  { destruct (List.filter p l) as [|y k]; [discriminate|].
    injection Hx as ->. by left. }
  apply List.filter_In in Hin as [Hin Hp]. split; [by apply list_elem_of_In | done].
Qed.

Lemma contacts_get_authenticated env auth tok user w :
  bearer_token auth = Some tok ->
  tok ≠ EmptyString ->
  jwt_verify tok (JWT_SECRET penv) (now_ms env) = inr user ->
  db_fault env 0 = false ->
  run (contacts_get penv env auth) w
  = (w,
     [Respond 200
        (BContacts
           (List.map (fun '(i, n) => {| ui_id := i; ui_username := n |})
              (Sql.contacts_of (db w) (jwt_id user))))]).
Proof.
  intros Hb Ht Hv F0. unfold run, contacts_get.
  rewrite (authenticateToken_accept _ _ _ _ _ _ Hb Ht Hv).
  unfold_M. rewrite F0. reflexivity.
Qed.

Lemma contacts_of_elem d owner c u :
  c ∈ contacts d -> c_user_id c = owner ->
  u ∈ users d -> u_id u = c_contact_id c ->
  (u_id u, u_username u) ∈ Sql.contacts_of d owner.
Proof.
  intros Hc Ho Hu Hid. unfold Sql.contacts_of.
  apply list_elem_of_In, List.in_flat_map. exists c. split.
  - apply List.filter_In. split; [by apply list_elem_of_In|].
    rewrite Ho. apply String.eqb_refl.
  - apply List.in_map_iff. exists u. split; [done|].
    apply List.filter_In. split; [by apply list_elem_of_In|].
    rewrite Hid. apply String.eqb_refl.
Qed.

Section AddOnce.

Variables (env1 : Env) (auth1 : option string) (tok1 : string)
  (owner : JwtPayload) (handle : string) (peer : UserRow) (w : World).

Hypothesis Hbearer1 : bearer_token auth1 = Some tok1.
Hypothesis Htok1 : tok1 ≠ EmptyString.
Hypothesis Hverify1 :
  jwt_verify tok1 (JWT_SECRET penv) (now_ms env1) = inr owner.
Hypothesis Hhandle : handle ≠ EmptyString.
Hypothesis Hstore1 : db_fault env1 0 = false /\ db_fault env1 1 = false.
Hypothesis Hpeer : Sql.user_by_username (db w) handle = Some peer.
Hypothesis Hother : u_id peer ≠ jwt_id owner.
Hypothesis Hnew :
  forall c, c ∈ contacts (db w) ->
    c_id c ≠ generateId "contact_" env1 /\
    ~ (c_user_id c = jwt_id owner /\ c_contact_id c = u_id peer).

(** The store after the edge from the owner to the peer is inserted. *)
Let added : World :=
  {| db := {| users := users (db w);
              contacts := contacts (db w) ++
                [{| c_id := generateId "contact_" env1;
                    c_user_id := jwt_id owner; c_contact_id := u_id peer |}];
              messages := messages (db w);
              pre_keys := pre_keys (db w);
              signed_pre_keys := signed_pre_keys (db w) |};
     connectedUsers := connectedUsers w |}.

Lemma contacts_add_ok :
  run (contacts_add penv env1 auth1 (Some handle)) w
  = (added,
     [Committed (InsertContact (generateId "contact_" env1));
      Respond 200
        (BContact "Contact added successfully"
           {| ui_id := u_id peer; ui_username := u_username peer |})]).
Proof.
  destruct Hstore1 as [F0 F1]. unfold run, contacts_add.
  rewrite (authenticateToken_accept _ _ _ _ _ _ Hbearer1 Htok1 Hverify1).
  rewrite (truthy_str_Some _ Hhandle). simpl. unfold_M.
  rewrite F0, Hpeer. simpl.
  apply String.eqb_neq in Hother as ->. rewrite F1.
  unfold Sql.insert_contact. rewrite existsb_false_intro; [reflexivity|].
  intros c Hc. destruct (Hnew c Hc) as [Hid Hpair].
  apply String.eqb_neq in Hid as ->. simpl.
  apply andb_false_iff.
  destruct (String.eqb_spec (c_user_id c) (jwt_id owner)); [|by left].
  destruct (String.eqb_spec (c_contact_id c) (u_id peer)); [|by right].
  by destruct Hpair.
Qed.

(** X6: adding a contact and adding it again.  The first call inserts
    the edge and answers 200 with the peer's id and handle; whatever the
    server serves afterwards, a second call by the same owner for the same
    handle runs into the uniqueness of (owner, peer) and is answered 400
    [Contact already exists], leaving the world as it found it. *)
Theorem contacts_add_twice env2 auth2 tok2 owner2 between :
  bearer_token auth2 = Some tok2 ->
  tok2 ≠ EmptyString ->
  jwt_verify tok2 (JWT_SECRET penv) (now_ms env2) = inr owner2 ->
  jwt_id owner2 = jwt_id owner ->
  db_fault env2 0 = false -> db_fault env2 1 = false ->
  exists w1 w2,
    run (contacts_add penv env1 auth1 (Some handle)) w
    = (w1,
       [Committed (InsertContact (generateId "contact_" env1));
        Respond 200
          (BContact "Contact added successfully"
             {| ui_id := u_id peer; ui_username := u_username peer |})]) /\
    (run (serve penv between) w1).1 = w2 /\
    run (contacts_add penv env2 auth2 (Some handle)) w2
    = (w2, [Respond 400 (BMessage "Contact already exists")]).
Proof.
  intros Hb2 Ht2 Hv2 Hsame F0 F1.
  exists added, (run (serve penv between) added).1.
  split; [apply contacts_add_ok|]. split; [reflexivity|].
  set (w2 := (run (serve penv between) added).1).
  assert (Hpeer2 : Sql.user_by_username (db w2) handle = Some peer)
    by (by apply (serve_keeps_user penv between added)).
  destruct (serve_grows penv between added) as (_ & Hc & _).
  fold w2 in Hc.
  unfold run, contacts_add.
  rewrite (authenticateToken_accept _ _ _ _ _ _ Hb2 Ht2 Hv2).
  rewrite (truthy_str_Some _ Hhandle). simpl. unfold_M.
  rewrite F0, Hpeer2. simpl. rewrite Hsame.
  apply String.eqb_neq in Hother as ->. rewrite F1.
  unfold Sql.insert_contact.
  rewrite (existsb_true_intro _ _
             {| c_id := generateId "contact_" env1;
                c_user_id := jwt_id owner; c_contact_id := u_id peer |});
    [reflexivity | | ].
  - eapply elem_of_prefix; [|exact Hc]. simpl.
    apply elem_of_app. right. apply list_elem_of_here.
  - simpl. rewrite !String.eqb_refl. apply orb_true_r.
Qed.

(** X7: adding a contact and listing.  After the owner has added the
    peer, and whatever the server serves afterwards, the owner's contact
    list holds the peer's id and handle.  The edge has one direction: the
    call leaves the peer's own list as it was. *)
Theorem contacts_add_then_list env3 auth3 tok3 owner3 between :
  bearer_token auth3 = Some tok3 ->
  tok3 ≠ EmptyString ->
  jwt_verify tok3 (JWT_SECRET penv) (now_ms env3) = inr owner3 ->
  jwt_id owner3 = jwt_id owner ->
  db_fault env3 0 = false ->
  exists w1 w2 listed,
    (run (contacts_add penv env1 auth1 (Some handle)) w).1 = w1 /\
    (run (serve penv between) w1).1 = w2 /\
    run (contacts_get penv env3 auth3) w2
    = (w2, [Respond 200 (BContacts listed)]) /\
    {| ui_id := u_id peer; ui_username := u_username peer |} ∈ listed /\
    Sql.contacts_of (db w1) (u_id peer) = Sql.contacts_of (db w) (u_id peer).
Proof.
  intros Hb3 Ht3 Hv3 Hsame F0.
  exists added, (run (serve penv between) added).1. eexists.
  split; [by rewrite contacts_add_ok|]. split; [reflexivity|].
  set (w2 := (run (serve penv between) added).1).
  split; [by apply (contacts_get_authenticated env3 auth3 tok3 owner3)|].
  split.
  - assert (Hpeer2 : Sql.user_by_username (db w2) handle = Some peer)
      by (by apply (serve_keeps_user penv between added)).
    apply first_Some_elem in Hpeer2 as [Hin _].
    destruct (serve_grows penv between added) as (_ & Hc & _).
    fold w2 in Hc. rewrite Hsame.
    apply list_elem_of_In, List.in_map_iff.
    exists (u_id peer, u_username peer). split; [reflexivity|].
    apply list_elem_of_In.
    apply (contacts_of_elem (db w2) (jwt_id owner)
             {| c_id := generateId "contact_" env1;
                c_user_id := jwt_id owner; c_contact_id := u_id peer |} peer);
      try done.
    eapply elem_of_prefix; [|exact Hc]. simpl.
    apply elem_of_app. right. apply list_elem_of_here.
  - unfold Sql.contacts_of. simpl. rewrite List.filter_app. simpl.
    apply not_eq_sym, String.eqb_neq in Hother as ->.
    by rewrite app_nil_r.
Qed.

End AddOnce.

End Contacts.

(** ** The relay: what is stored, what is pushed, what is dropped *)

Section RelayMore.

Context `{Platform} (penv : option string).

Lemma insert_by_timestamp_Permutation m l :
  Sql.insert_by_timestamp m l ≡ₚ m :: l.
Proof.
  induction l as [|x l IH]; simpl; [done|].
  destruct (Z.ltb (m_timestamp m) (m_timestamp x)); [done|].
  rewrite IH. apply Permutation_swap.
Qed.

Lemma order_by_timestamp_Permutation_from acc l :
  foldl (fun acc m => Sql.insert_by_timestamp m acc) acc l ≡ₚ acc ++ l.
Proof.
  revert acc. induction l as [|m l IH]; simpl; intros acc.
  - by rewrite app_nil_r.
  - rewrite IH, insert_by_timestamp_Permutation. simpl.
    apply Permutation_middle.
Qed.

Lemma order_by_timestamp_Permutation l : Sql.order_by_timestamp l ≡ₚ l.
Proof. apply (order_by_timestamp_Permutation_from [] l). Qed.

(** X10: the history route answers only with envelopes of the caller.
    An authenticated caller who asks for the conversation with any id is
    answered the envelopes the store holds between the two, each as many
    times as the store holds it; in every one of them the caller is the
    sender or the recipient.  Nothing is written. *)
Theorem messages_get_only_own_conversations env auth tok caller contactId w :
  bearer_token auth = Some tok ->
  tok ≠ EmptyString ->
  jwt_verify tok (JWT_SECRET penv) (now_ms env) = inr caller ->
  db_fault env 0 = false ->
  exists rows,
    run (messages_get penv env auth contactId) w
    = (w, [Respond 200 (BMessages rows)]) /\
    rows ≡ₚ List.filter (Sql.between (jwt_id caller) contactId) (messages (db w)) /\
    forall m, m ∈ rows ->
      (m_sender_id m = jwt_id caller /\ m_recipient_id m = contactId) \/
      (m_sender_id m = contactId /\ m_recipient_id m = jwt_id caller).
Proof.
  intros Hb Ht Hv F0. eexists. split; [|split].
  - by apply (messages_get_authenticated penv env auth tok caller).
  - apply order_by_timestamp_Permutation.
  - intros m Hm. unfold Sql.messages_between in Hm.
    rewrite order_by_timestamp_Permutation in Hm.
    apply list_elem_of_In, List.filter_In in Hm as [_ Hm].
    by apply between_spec.
Qed.

Section SendOnce.

Variables (env : Env) (socket : Socket) (recipient : string)
  (enc : jsval) (plain : option string) (w : World).

Hypothesis Hstore : db_fault env 0 = false.
Hypothesis Hdefined : enc ≠ JUndefined.
Hypothesis Hfresh :
  forall m, m ∈ messages (db w) -> m_id m ≠ generateId "msg_" env.

(** The envelope the send stores. *)
Let envelope : MessageRow :=
  {| m_id := generateId "msg_" env; m_sender_id := userId socket;
     m_recipient_id := recipient; m_encrypted_message := json_text enc;
     m_plain_text := plain; m_timestamp := now_ms env / 1000 |}.

Let stored : World :=
  {| db := {| users := users (db w); contacts := contacts (db w);
              messages := messages (db w) ++ [envelope];
              pre_keys := pre_keys (db w);
              signed_pre_keys := signed_pre_keys (db w) |};
     connectedUsers := connectedUsers w |}.

Lemma on_send_message_ok :
  run (on_send_message env socket (Some recipient) enc plain) w
  = (stored,
     Committed (InsertMessage (generateId "msg_" env)) ::
     match connectedUsers w !! recipient with
     | Some recipientSocket =>
         [Emit recipientSocket "message"
            {| push_id := generateId "msg_" env;
               push_senderId := userId socket;
               push_encryptedMessage := enc;
               push_timestamp := now_ms env |}]
     | None => []
     end).
Proof.
  apply (on_send_message_committed env socket (Some recipient) enc plain w);
    [exact Hstore|].
  unfold sent_row, Sql.message_row, JSON_stringify.
  assert (Hs : match enc with JUndefined => None | _ => Some (json_text enc) end
               = Some (json_text enc)) by (by destruct enc).
  rewrite Hs. unfold Sql.insert_message.
  rewrite existsb_false_intro; [reflexivity|].
  intros m Hm. simpl. apply String.eqb_neq. by apply Hfresh.
Qed.

(** X11: a stored message is pushed to the socket registered under the
    recipient's id and to nobody else.  The event is [message]; it carries
    the id under which the envelope was stored, the sender's id as the
    handshake set it on the socket, and the ciphertext as it was sent.
    When no socket is registered for the recipient nothing is emitted. *)
Theorem send_message_pushes_to_registered_socket :
  emitted (run (on_send_message env socket (Some recipient) enc plain) w).2
  = match connectedUsers w !! recipient with
    | Some recipientSocket =>
        [(recipientSocket, "message",
          {| push_id := generateId "msg_" env;
             push_senderId := userId socket;
             push_encryptedMessage := enc;
             push_timestamp := now_ms env |})]
    | None => []
    end /\
  envelope ∈ messages (db (run (on_send_message env socket (Some recipient) enc plain) w).1).
Proof.
  rewrite on_send_message_ok. simpl. split.
  - by destruct (connectedUsers w !! recipient).
  - apply elem_of_app. right. apply list_elem_of_here.
Qed.

(** X12: a message sent is a message found.  Once the send is stored,
    and whatever the server serves afterwards, the history route answers
    the recipient who asks for the conversation with the sender, and the
    sender who asks for the conversation with the recipient, with a list
    that holds the envelope: sender, recipient, the JSON text of the
    ciphertext and the plain text as sent.  This holds whether or not the
    recipient was connected at the time of the send. *)
Theorem send_then_history env_r auth_r tok_r reader contactId between :
  bearer_token auth_r = Some tok_r ->
  tok_r ≠ EmptyString ->
  jwt_verify tok_r (JWT_SECRET penv) (now_ms env_r) = inr reader ->
  db_fault env_r 0 = false ->
  (jwt_id reader = recipient /\ contactId = userId socket) \/
  (jwt_id reader = userId socket /\ contactId = recipient) ->
  exists w1 w2 rows,
    (run (on_send_message env socket (Some recipient) enc plain) w).1 = w1 /\
    (run (serve penv between) w1).1 = w2 /\
    run (messages_get penv env_r auth_r contactId) w2
    = (w2, [Respond 200 (BMessages rows)]) /\
    envelope ∈ rows.
Proof.
  intros Hb Ht Hv F0 Hwho.
  exists stored, (run (serve penv between) stored).1. eexists.
  split; [by rewrite on_send_message_ok|]. split; [reflexivity|].
  set (w2 := (run (serve penv between) stored).1).
  split; [by apply (messages_get_authenticated penv env_r auth_r tok_r reader)|].
  unfold Sql.messages_between. rewrite order_by_timestamp_Permutation.
  apply list_elem_of_In, List.filter_In. split.
  - apply list_elem_of_In.
    destruct (serve_grows penv between stored) as (_ & _ & Hm & _).
    eapply elem_of_prefix; [|exact Hm]. simpl.
    apply elem_of_app. right. apply list_elem_of_here.
  - apply between_spec. simpl. destruct Hwho as [[-> ->] | [-> ->]]; auto.
Qed.

End SendOnce.

(** X13: what makes a send fail, and how.  An event that comes with a
    payload is dropped silently when the payload has no recipient or no
    ciphertext, when the generated id is already in the table, or when the
    store reports an error: the world is unchanged, the trace is one line
    on the error console, and nothing is sent to the recipient or back to
    the sender.  An event that comes without payload is not dropped: the
    listener throws while it takes the payload apart, before it reaches
    the store, and nothing catches the exception. *)
Theorem send_message_dropped_or_uncaught env socket w :
  receive_send_message env socket None w = inl UncaughtTypeError /\
  (forall d,
     sd_recipientId d = None \/
     sd_encryptedMessage d = JUndefined \/
     (exists m, m ∈ messages (db w) /\ m_id m = generateId "msg_" env) \/
     db_fault env 0 = true ->
     receive_send_message env socket (Some d) w
     = inr (w, [ConsoleError "Error saving message:"])).
Proof.
  split; [reflexivity|].
  intros d Hcause. unfold receive_send_message. f_equal.
  apply on_send_message_failed.
  destruct Hcause as [Hr | [He | [(m & Hm & Hid) | F]]];
    [right | right | right | by left].
  - exists SQLITE_CONSTRAINT. by rewrite Hr.
  - exists SQLITE_CONSTRAINT. rewrite He. unfold sent_row, Sql.message_row. simpl.
    by destruct (sd_recipientId d).
  - exists SQLITE_CONSTRAINT. unfold sent_row, Sql.message_row.
    destruct (sd_recipientId d) as [r|]; [|reflexivity].
    destruct (JSON_stringify (sd_encryptedMessage d)) as [e|]; [|reflexivity].
    unfold Sql.insert_message. simpl.
    rewrite (existsb_true_intro _ _ m Hm); [reflexivity|].
    rewrite Hid. apply String.eqb_refl.
Qed.

End RelayMore.

(** ** The handshake and the registry *)

Section Handshake.

Context `{Platform} (penv : option string).

(** X14: a handshake without token, with an empty token, or with a token
    the library refuses is turned away before the connection handler
    runs: the registry and the store are untouched and nothing is
    logged. *)
Theorem refused_handshake_changes_nothing env sid token w :
  truthy_str token = false \/
  (exists tok err,
     token = Some tok /\
     jwt_verify tok (JWT_SECRET penv) (now_ms env) = inl err) ->
  io_use penv env sid token = inl "Authentication error" /\
  run (handle penv env (SocketConnect sid token)) w = (w, []).
Proof.
  intros Hcause.
  assert (Hio : io_use penv env sid token = inl "Authentication error").
  { unfold io_use. destruct Hcause as [-> | (tok & err & -> & Hv)]; [reflexivity|].
    destruct (negb (truthy_str (Some tok))); [reflexivity|].
    simpl. by rewrite Hv. }
  split; [exact Hio|]. unfold handle. rewrite Hio. reflexivity.
Qed.

(** X15: a handshake with a token that verifies registers the socket
    under the id of the token, with the id and handle of the token on it,
    and replaces whatever socket was registered there; the entries of the
    other users and the store stay as they were.  If the user had no
    entry, the disconnect of this socket gives back the world the
    handshake started from. *)
Theorem handshake_registers_socket env sid tok principal w :
  tok ≠ EmptyString ->
  jwt_verify tok (JWT_SECRET penv) (now_ms env) = inr principal ->
  exists w1,
    (run (handle penv env (SocketConnect sid (Some tok))) w).1 = w1 /\
    connectedUsers w1 !! jwt_id principal
    = Some {| socket_id := sid; userId := jwt_id principal;
              username := jwt_username principal |} /\
    (forall k, k ≠ jwt_id principal ->
       connectedUsers w1 !! k = connectedUsers w !! k) /\
    db w1 = db w /\
    (connectedUsers w !! jwt_id principal = None ->
     (run (on_disconnect {| socket_id := sid; userId := jwt_id principal;
                            username := jwt_username principal |}) w1).1 = w).
Proof.
  intros Ht Hv. eexists. split; [reflexivity|].
  unfold handle, io_use. rewrite (truthy_str_Some _ Ht). simpl. rewrite Hv.
  unfold on_connection, on_disconnect. unfold_M. simpl.
  split; [apply lookup_insert_eq|].
  split; [intros k Hk; by apply lookup_insert_ne|].
  split; [reflexivity|].
  intros Hnone. destruct w as [d conn]. simpl in *. f_equal.
  by apply delete_insert_id.
Qed.

End Handshake.

(** ** Every request *)

Section EveryRequest.

Context `{Platform} (penv : option string).


(** X17: when the store is down, no request is reported as a success and
    nothing is delivered.  If every database call of a run fails, the
    database is unchanged, no answer is 200, and no event is emitted. *)
Theorem store_down_no_success env r w :
  (forall k, db_fault env k = true) ->
  db (run (handle penv env r) w).1 = db w /\
  (forall st body,
     (st, body) ∈ responses (run (handle penv env r) w).2 -> st ≠ 200%nat) /\
  emitted (run (handle penv env r) w).2 = [].
Proof.
  intros Hdown.
  destruct r;
    unfold handle, auth_register, auth_login, contacts_get, contacts_add,
      keys_exchange, messages_get, on_connection, on_send_message,
      on_disconnect, authenticateToken.
  all: unfold_M; rewrite ?Hdown; repeat (branch; simpl).
  all: split; [reflexivity|]; split; [|reflexivity].
  all: intros st body Hin; simpl in Hin.
  all: repeat (apply elem_of_cons in Hin as [Hin|Hin]; [by injection Hin as -> _|]).
  all: by apply elem_of_nil in Hin.
Qed.

(** X18: who writes what.  An HTTP request and a send never touch the
    registry of connections; a handshake and a disconnect never touch the
    store; and of the store a registration writes only the users table,
    an added contact only the contacts table, a send only the messages
    table, and no other request anything. *)
Theorem requests_write_only_their_own env r w :
  (match r with
   | SocketConnect _ _ | SocketDisconnect _ => True
   | _ => connectedUsers (run (handle penv env r) w).1 = connectedUsers w
   end) /\
  (match r with
   | PostRegister _ _ => True
   | _ => users (db (run (handle penv env r) w).1) = users (db w)
   end) /\
  (match r with
   | PostContactsAdd _ _ => True
   | _ => contacts (db (run (handle penv env r) w).1) = contacts (db w)
   end) /\
  (match r with
   | SocketSendMessage _ _ _ _ => True
   | _ => messages (db (run (handle penv env r) w).1) = messages (db w)
   end).
Proof.
  destruct r;
    unfold handle, auth_register, auth_login, contacts_get, contacts_add,
      keys_exchange, messages_get, on_connection, on_send_message,
      on_disconnect, authenticateToken, io_use,
      Sql.insert_user, Sql.insert_contact, Sql.insert_message.
  all: unfold_M; repeat (branch; simpl); auto.
Qed.

End EveryRequest.

(** ** The key exchange on a store the server filled *)

Section Keyless.

Context `{Platform} (penv : option string).

Lemma handle_keeps_keyless env r w :
  keyless (db w) -> keyless (db (run (handle penv env r) w).1).
Proof.
  intros (Hp & Hs & Hu).
  destruct (handle_keeps_keys penv env r w) as [Hp' Hs'].
  split; [congruence|]. split; [congruence|].
  destruct (handle_db_change penv env r w)
    as [E | [(i & n & h & E) | [(i & o & p & E) | (row & E)]]].
  - by rewrite E.
  - apply insert_user_inr in E as [_ ->]. simpl. intros u Hin.
    apply elem_of_app in Hin as [Hin|Hin]; [by apply Hu|].
    apply list_elem_of_singleton in Hin as ->. auto.
  - apply insert_contact_inr in E as [_ ->]. exact Hu.
  - apply insert_message_inr_full in E as (m & _ & _ & ->). exact Hu.
Qed.

(** X19: the server never comes to hold key material by itself.
    Registration leaves the registration id and the identity key of a user
    empty and no route writes them or the key tables; so from a store
    without key material, the empty one for instance, whatever requests
    are served, every successful key exchange answers the same bundle:
    [registrationId] and [identityKey] null and the five pre-key fields
    undefined. *)
Theorem keys_exchange_serves_no_key_material rs env auth cid bundle w message keys :
  keyless (db w) ->
  (run (keys_exchange penv env auth (Some cid) bundle)
     (run (serve penv rs) w).1).2
  = [Respond 200 (BKeys message keys)] ->
  keys = {| registrationId := JNull; identityKey := JNull;
            preKeyId := JUndefined; preKeyPublic := JUndefined;
            signedPreKeyId := JUndefined; signedPreKeyPublic := JUndefined;
            signedPreKeySignature := JUndefined |}.
Proof.
  intros Hw Hrun.
  assert (Hk : keyless (db (run (serve penv rs) w).1)).
  { revert Hw. apply (serve_invariant penv (fun w' => keyless (db w'))).
    intros env' r w'. apply handle_keeps_keyless. }
  destruct Hk as (Hp & Hs & Hu).
  apply keys_exchange_success_inv in Hrun as (contact & Hc & ->).
  apply first_Some_elem in Hc as [Hin _]. destruct (Hu _ Hin) as [Hr Hi].
  unfold make_recipientKeys, Sql.pre_keys_of, Sql.signed_pre_keys_of.
  rewrite Hp, Hs, Hr, Hi. reflexivity.
Qed.

(** X20: what the key exchange refuses.  With a valid token, a request
    without contact id or without bundle (absent, null, false, 0 or the
    empty string) is answered 400, and a contact id no user has is
    answered 404 [Contact not found]; neither changes the world. *)
Theorem keys_exchange_refusals env auth tok user contactId bundle w :
  bearer_token auth = Some tok ->
  tok ≠ EmptyString ->
  jwt_verify tok (JWT_SECRET penv) (now_ms env) = inr user ->
  (truthy_str contactId = false \/ truthy bundle = false ->
   run (keys_exchange penv env auth contactId bundle) w
   = (w, [Respond 400 (BMessage "Contact ID and public key bundle required")])) /\
  (forall cid,
     contactId = Some cid -> cid ≠ EmptyString -> truthy bundle = true ->
     db_fault env 0 = false ->
     Sql.user_by_id (db w) cid = None ->
     run (keys_exchange penv env auth contactId bundle) w
     = (w, [Respond 404 (BMessage "Contact not found")])).
Proof.
  intros Hb Ht Hv. split.
  - intros Hmissing. unfold run, keys_exchange.
    rewrite (authenticateToken_accept _ _ _ _ _ _ Hb Ht Hv).
    destruct Hmissing as [-> | ->]; simpl; [reflexivity|].
    by rewrite orb_true_r.
  - intros cid -> Hc Hp F0 Hu. unfold run, keys_exchange.
    rewrite (authenticateToken_accept _ _ _ _ _ _ Hb Ht Hv).
    rewrite (truthy_str_Some _ Hc), Hp. simpl. unfold_M.
    rewrite F0, Hu. reflexivity.
Qed.

End Keyless.

(** ** The history as the client shows it *)

Section HistoryView.

Context `{Platform} `{Client.CryptoJS} (penv : option string).

(** A row of the history response has no property [senderId] and no
    property [encryptedMessage]: its keys are the column names. *)
Lemma shown_row datetime st userId m :
  Client.shown st userId (Client.row_fields datetime m)
  = Client.row_fields datetime m ++
    [("text", JStr "[Decryption failed]"); ("isEncrypted", JBool false)].
Proof.
  unfold Client.shown, Client.row_fields, Client.decryptMessage. simpl.
  destruct (negb (Client.isInitialized st)
            || negb (truthy_str (Client.encryptionKey st))); reflexivity.
Qed.

(** X21: the history view cannot read the history route.  The route
    answers rows keyed by the column names ([sender_id],
    [encrypted_message], [plain_text]) and the view reads [senderId],
    [encryptedMessage] and [plainText]; so for every envelope of every
    answer, the caller's own included and whatever the cipher and its key
    are, the view shows the text [[Decryption failed]] and marks the
    message as not encrypted. *)
Theorem history_view_shows_decryption_failed
    datetime st env auth tok caller contactId w :
  bearer_token auth = Some tok ->
  tok ≠ EmptyString ->
  jwt_verify tok (JWT_SECRET penv) (now_ms env) = inr caller ->
  db_fault env 0 = false ->
  exists rows,
    run (messages_get penv env auth contactId) w
    = (w, [Respond 200 (BMessages rows)]) /\
    Client.loadMessages datetime st (jwt_id caller) (200%nat, BMessages rows)
    = Some (List.map
              (fun m =>
                 Client.row_fields datetime m ++
                 [("text", JStr "[Decryption failed]");
                  ("isEncrypted", JBool false)])
              rows).
Proof.
  intros Hb Ht Hv F0. eexists. split.
  - by apply (messages_get_authenticated penv env auth tok caller).
  - unfold Client.loadMessages. simpl. f_equal.
    apply List.map_ext. intros m. apply shown_row.
Qed.

End HistoryView.

(** ** Who a message is from *)

Section Sender.

Context `{Platform} (penv : option string).

(** X22: the sender of a message is the principal of the token.  On a
    socket the handshake admitted, a [send_message] event stores and
    pushes the message under the id of the token of the handshake,
    whatever the event says: every row the send adds to the messages table
    and every payload it emits carries that id as the sender. *)
Theorem sender_is_the_token_principal
    env_h sid tok principal env recipientId enc plain w :
  tok ≠ EmptyString ->
  jwt_verify tok (JWT_SECRET penv) (now_ms env_h) = inr principal ->
  exists socket,
    io_use penv env_h sid (Some tok) = inr socket /\
    (forall to event payload,
       (to, event, payload)
       ∈ emitted (run (on_send_message env socket recipientId enc plain) w).2 ->
       push_senderId payload = jwt_id principal) /\
    (forall m,
       m ∈ messages (db (run (on_send_message env socket recipientId enc plain) w).1) ->
       m ∈ messages (db w) \/ m_sender_id m = jwt_id principal).
Proof.
  intros Ht Hv. eexists. split.
  { unfold io_use. rewrite (truthy_str_Some _ Ht). simpl. rewrite Hv. reflexivity. }
  set (socket := {| socket_id := sid; userId := jwt_id principal;
                    username := jwt_username principal |}).
  destruct (db_fault env 0) eqn:F.
  { rewrite on_send_message_failed by auto. simpl. split; [|auto].
    intros to event payload Hin. by apply elem_of_nil in Hin. }
  destruct (Sql.insert_message (db w) (sent_row env socket recipientId enc plain))
    as [e|d'] eqn:E.
  { rewrite on_send_message_failed by eauto. simpl. split; [|auto].
    intros to event payload Hin. by apply elem_of_nil in Hin. }
  rewrite (on_send_message_committed _ _ _ _ _ _ d' F E). simpl. split.
  - intros to event payload Hin.
    destruct (connectedUsers w !! default EmptyString recipientId); simpl in Hin.
    + apply list_elem_of_singleton in Hin. injection Hin as _ _ ->. reflexivity.
    + by apply elem_of_nil in Hin.
  - intros m Hm. apply insert_message_inr in E as (m' & Hrow & Hd').
    rewrite Hd' in Hm. apply elem_of_app in Hm as [Hm|Hm]; [by left|].
    apply list_elem_of_singleton in Hm as ->. right.
    unfold sent_row, Sql.message_row in Hrow.
    destruct recipientId; [|discriminate].
    destruct (JSON_stringify enc); [|discriminate].
    by injection Hrow as <-.
Qed.

End Sender.

(** * The further properties on concrete inputs *)

Section MoreRuns.

Import Reference Scenario Cases ClientReference.

Lemma no_contacts_yet : contacts (db registered) = [].
Proof. vm_compute. reflexivity. Qed.

Lemma no_messages_yet : messages (db registered) = [].
Proof. vm_compute. reflexivity. Qed.

Lemma auth_register_rejects_invalid_input_witness :
  run (auth_register None (env_at 1000 "aaaaaaaaa") (Some "al") (Some "secret1"))
    empty_world
  = (empty_world, [Respond 400 (BMessage "Username must be 3-30 characters")]).
Proof.
  apply (proj1 (proj2 (auth_register_rejects_invalid_input None
                         (env_at 1000 "aaaaaaaaa") (Some "al") (Some "secret1")
                         empty_world)
                  "al" "secret1" eq_refl eq_refl
                  ltac:(discriminate) ltac:(discriminate))).
  left. simpl. lia.
Defined.

Lemma auth_register_rejects_taken_handle_witness :
  run (auth_register None (env_at 4000 "zzzzzzzzz") (Some "alice") (Some "another1"))
    registered
  = (registered, [Respond 400 (BMessage "Username already exists")]).
Proof.
  apply (auth_register_rejects_taken_handle None _ _ _ (user_row alice "secret1"));
    try (vm_compute; reflexivity); simpl; lia.
Defined.

Lemma auth_login_failures_indistinguishable_witness :
  run (auth_login None (env_at 4000 "zzzzzzzzz") (Some "dave") (Some "secret1"))
    registered
  = run (auth_login None (env_at 4500 "yyyyyyyyy") (Some "alice") (Some "wrong!"))
      registered /\
  run (auth_login None (env_at 4000 "zzzzzzzzz") (Some "dave") (Some "secret1"))
    registered
  = (registered, [Respond 401 (BMessage "Invalid credentials")]).
Proof.
  apply (auth_login_failures_indistinguishable None _ _ _ _ _ _
           (user_row alice "secret1"));
    try (vm_compute; reflexivity); discriminate.
Defined.

Lemma authenticateToken_requires_second_word_witness :
  authenticateToken None (env_at 5000 "aaaaaaaaa") (Some (token_of alice))
    (fun _ => res_json (BMessage "reached the route")) registered
  = (tt, registered, [Respond 401 (BMessage "Access token required")]).
Proof.
  apply (authenticateToken_requires_second_word None).
  right. exists (token_of alice). split; [reflexivity | vm_compute; reflexivity].
Defined.

Lemma authenticateToken_ignores_scheme_witness :
  bearer_token (Some ("Basic" +:+ " " +:+ token_of alice)) = Some (token_of alice) /\
  authenticateToken None (env_at 5000 "aaaaaaaaa")
    (Some ("Basic" +:+ " " +:+ token_of alice))
    (fun _ => res_json (BMessage "reached the route")) registered
  = authenticateToken None (env_at 5000 "aaaaaaaaa")
      (Some ("Bearer " +:+ token_of alice))
      (fun _ => res_json (BMessage "reached the route")) registered.
Proof.
  apply (authenticateToken_ignores_scheme None); vm_compute; reflexivity.
Defined.

Lemma contacts_add_twice_witness :
  exists w1 w2,
    run (contacts_add None alice_adds_bob (bearer alice) (Some "bob")) registered
    = (w1,
       [Committed (InsertContact (generateId "contact_" alice_adds_bob));
        Respond 200
          (BContact "Contact added successfully"
             {| ui_id := u_id (user_row bob "secret2");
                ui_username := u_username (user_row bob "secret2") |})]) /\
    (run (serve None two_sends) w1).1 = w2 /\
    run (contacts_add None (env_at 9000 "lllllllll") (bearer alice) (Some "bob")) w2
    = (w2, [Respond 400 (BMessage "Contact already exists")]).
Proof.
  apply (contacts_add_twice None alice_adds_bob (bearer alice) (token_of alice)
           alice "bob" (user_row bob "secret2") registered
           ltac:(vm_compute; reflexivity) ltac:(discriminate)
           ltac:(vm_compute; reflexivity) ltac:(discriminate)
           ltac:(split; reflexivity) ltac:(vm_compute; reflexivity)
           ltac:(discriminate)
           ltac:(intros c Hc; rewrite no_contacts_yet in Hc;
                 by apply elem_of_nil in Hc)
           (env_at 9000 "lllllllll") (bearer alice) (token_of alice) alice);
    try (vm_compute; reflexivity); discriminate.
Defined.

Lemma contacts_add_then_list_witness :
  exists w1 w2 listed,
    (run (contacts_add None alice_adds_bob (bearer alice) (Some "bob")) registered).1
    = w1 /\
    (run (serve None two_sends) w1).1 = w2 /\
    run (contacts_get None (env_at 9000 "lllllllll") (bearer alice)) w2
    = (w2, [Respond 200 (BContacts listed)]) /\
    {| ui_id := u_id (user_row bob "secret2");
       ui_username := u_username (user_row bob "secret2") |} ∈ listed /\
    Sql.contacts_of (db w1) (u_id (user_row bob "secret2"))
    = Sql.contacts_of (db registered) (u_id (user_row bob "secret2")).
Proof.
  apply (contacts_add_then_list None alice_adds_bob (bearer alice) (token_of alice)
           alice "bob" (user_row bob "secret2") registered
           ltac:(vm_compute; reflexivity) ltac:(discriminate)
           ltac:(vm_compute; reflexivity) ltac:(discriminate)
           ltac:(split; reflexivity) ltac:(vm_compute; reflexivity)
           ltac:(discriminate)
           ltac:(intros c Hc; rewrite no_contacts_yet in Hc;
                 by apply elem_of_nil in Hc)
           (env_at 9000 "lllllllll") (bearer alice) (token_of alice) alice);
    try (vm_compute; reflexivity); discriminate.
Defined.

Lemma keys_stay_unique_witness : keys_unique (db registered).
Proof.
  apply (keys_stay_unique None registrations empty_world).
  unfold keys_unique. simpl. repeat split; apply NoDup_nil_2.
Defined.

Lemma messages_get_only_own_conversations_witness :
  exists rows,
    run (messages_get None (env_at 7000 "ccccccccc") (bearer alice) (jwt_id bob))
      after_two_sends
    = (after_two_sends, [Respond 200 (BMessages rows)]) /\
    rows ≡ₚ List.filter (Sql.between (jwt_id alice) (jwt_id bob))
              (messages (db after_two_sends)) /\
    forall m, m ∈ rows ->
      (m_sender_id m = jwt_id alice /\ m_recipient_id m = jwt_id bob) \/
      (m_sender_id m = jwt_id bob /\ m_recipient_id m = jwt_id alice).
Proof.
  apply (messages_get_only_own_conversations None _ _ (token_of alice));
    try (vm_compute; reflexivity); discriminate.
Defined.

Lemma no_messages_with_keys : messages (db world_with_keys) = [].
Proof. reflexivity. Qed.

Lemma send_message_pushes_to_registered_socket_witness :
  emitted (run (on_send_message (env_at 6000 "zzzzzzzzz") alice_socket
                  (Some (jwt_id bob)) (JStr "c1") (Some "hello")) world_with_keys).2
  = [(bob_socket, "message",
      {| push_id := "msg_zzzzzzzzz6000"; push_senderId := jwt_id alice;
         push_encryptedMessage := JStr "c1"; push_timestamp := 6000 |})] /\
  alice_to_bob
  ∈ messages (db (run (on_send_message (env_at 6000 "zzzzzzzzz") alice_socket
                         (Some (jwt_id bob)) (JStr "c1") (Some "hello"))
                    world_with_keys).1).
Proof.
  apply (send_message_pushes_to_registered_socket (env_at 6000 "zzzzzzzzz")
           alice_socket (jwt_id bob) (JStr "c1") (Some "hello") world_with_keys
           eq_refl ltac:(discriminate)
           ltac:(intros m Hm; rewrite no_messages_with_keys in Hm;
                 by apply elem_of_nil in Hm)).
Defined.

Lemma send_then_history_witness :
  exists w1 w2 rows,
    (run (on_send_message (env_at 6000 "zzzzzzzzz") alice_socket
            (Some (jwt_id bob)) (JStr "c1") (Some "hello")) registered).1 = w1 /\
    (run (serve None bob_connects_twice) w1).1 = w2 /\
    run (messages_get None (env_at 9000 "lllllllll") (bearer bob) (jwt_id alice)) w2
    = (w2, [Respond 200 (BMessages rows)]) /\
    alice_to_bob ∈ rows.
Proof.
  apply (send_then_history None (env_at 6000 "zzzzzzzzz") alice_socket
           (jwt_id bob) (JStr "c1") (Some "hello") registered
           eq_refl ltac:(discriminate)
           ltac:(intros m Hm; rewrite no_messages_yet in Hm;
                 by apply elem_of_nil in Hm)
           (env_at 9000 "lllllllll") (bearer bob) (token_of bob) bob);
    try (vm_compute; reflexivity); try discriminate.
  left. split; reflexivity.
Defined.

Lemma send_message_dropped_or_uncaught_witness :
  receive_send_message (env_at 6000 "zzzzzzzzz") alice_socket None world_with_keys
  = inl UncaughtTypeError /\
  receive_send_message (env_at 6000 "zzzzzzzzz") alice_socket
    (Some {| sd_recipientId := None; sd_encryptedMessage := JStr "c1";
             sd_plainText := Some "hello" |}) world_with_keys
  = inr (world_with_keys, [ConsoleError "Error saving message:"]).
Proof.
  destruct (send_message_dropped_or_uncaught (env_at 6000 "zzzzzzzzz")
              alice_socket world_with_keys) as [Hthrown Hdropped].
  split; [exact Hthrown|].
  apply Hdropped. by left.
Defined.

Lemma refused_handshake_changes_nothing_witness :
  io_use None (env_at 5000 "ddddddddd") "socket_x" (Some forged_token)
  = inl "Authentication error" /\
  run (handle None (env_at 5000 "ddddddddd") (SocketConnect "socket_x" (Some forged_token)))
    registered
  = (registered, []).
Proof.
  apply (refused_handshake_changes_nothing None).
  right. exists forged_token, (JsonWebTokenError "invalid signature").
  split; [reflexivity | vm_compute; reflexivity].
Defined.

Lemma handshake_registers_socket_witness :
  exists w1,
    (run (handle None (env_at 5000 "ddddddddd")
            (SocketConnect "socket_b" (Some (token_of bob)))) registered).1 = w1 /\
    connectedUsers w1 !! jwt_id bob
    = Some {| socket_id := "socket_b"; userId := jwt_id bob;
              username := jwt_username bob |} /\
    (forall k, k ≠ jwt_id bob ->
       connectedUsers w1 !! k = connectedUsers registered !! k) /\
    db w1 = db registered /\
    (connectedUsers registered !! jwt_id bob = None ->
     (run (on_disconnect {| socket_id := "socket_b"; userId := jwt_id bob;
                            username := jwt_username bob |}) w1).1 = registered).
Proof.
  apply (handshake_registers_socket None (env_at 5000 "ddddddddd") "socket_b"
           (token_of bob) bob registered);
    [discriminate | vm_compute; reflexivity].
Defined.


Lemma store_down_no_success_witness :
  db (run (handle None env_down (PostLogin (Some "alice") (Some "secret1")))
        registered).1
  = db registered /\
  (forall st body,
     (st, body)
     ∈ responses (run (handle None env_down
                         (PostLogin (Some "alice") (Some "secret1"))) registered).2 ->
     st ≠ 200%nat) /\
  emitted (run (handle None env_down (PostLogin (Some "alice") (Some "secret1")))
             registered).2
  = [].
Proof.
  apply (store_down_no_success None). reflexivity.
Defined.

Lemma keys_exchange_serves_no_key_material_witness :
  keyless_bundle
  = {| registrationId := JNull; identityKey := JNull;
       preKeyId := JUndefined; preKeyPublic := JUndefined;
       signedPreKeyId := JUndefined; signedPreKeyPublic := JUndefined;
       signedPreKeySignature := JUndefined |}.
Proof.
  apply (keys_exchange_serves_no_key_material None registrations
           (env_at 6000 "hhhhhhhhh") (bearer alice) (jwt_id bob) demo_bundle
           empty_world "Key exchange successful").
  - unfold keyless. simpl. split; [reflexivity|]. split; [reflexivity|].
    intros u Hu. by apply elem_of_nil in Hu.
  - vm_compute. reflexivity.
Defined.

Lemma keys_exchange_refusals_witness :
  run (keys_exchange None (env_at 6000 "hhhhhhhhh") (bearer alice) None demo_bundle)
    registered
  = (registered,
     [Respond 400 (BMessage "Contact ID and public key bundle required")]).
Proof.
  apply (proj1 (keys_exchange_refusals None (env_at 6000 "hhhhhhhhh") (bearer alice)
                  (token_of alice) alice None demo_bundle registered
                  ltac:(vm_compute; reflexivity) ltac:(discriminate)
                  ltac:(vm_compute; reflexivity))).
  by left.
Defined.

Lemma history_view_shows_decryption_failed_witness :
  exists rows,
    run (messages_get None (env_at 7000 "ccccccccc") (bearer alice) (jwt_id bob))
      after_two_sends
    = (after_two_sends, [Respond 200 (BMessages rows)]) /\
    Client.loadMessages datetime ready (jwt_id alice) (200%nat, BMessages rows)
    = Some (List.map
              (fun m =>
                 Client.row_fields datetime m ++
                 [("text", JStr "[Decryption failed]");
                  ("isEncrypted", JBool false)])
              rows).
Proof.
  apply (history_view_shows_decryption_failed None datetime ready
           (env_at 7000 "ccccccccc") (bearer alice) (token_of alice) alice);
    try (vm_compute; reflexivity); discriminate.
Defined.

Lemma sender_is_the_token_principal_witness :
  exists socket,
    io_use None (env_at 5000 "ddddddddd") "socket_a" (Some (token_of alice))
    = inr socket /\
    (forall to event payload,
       (to, event, payload)
       ∈ emitted (run (on_send_message (env_at 6000 "zzzzzzzzz") socket
                         (Some (jwt_id bob)) (JStr "c1") (Some "hello"))
                    world_with_keys).2 ->
       push_senderId payload = jwt_id alice) /\
    (forall m,
       m ∈ messages (db (run (on_send_message (env_at 6000 "zzzzzzzzz") socket
                               (Some (jwt_id bob)) (JStr "c1") (Some "hello"))
                          world_with_keys).1) ->
       m ∈ messages (db world_with_keys) \/ m_sender_id m = jwt_id alice).
Proof.
  apply (sender_is_the_token_principal None (env_at 5000 "ddddddddd") "socket_a"
           (token_of alice) alice);
    [discriminate | vm_compute; reflexivity].
Defined.

End MoreRuns.
